(** * open-port-test.py: a port-reachability test server

    A shallow embedding of the script [open-port-test.py].  The script
    parses a port and an optional [--ssl] flag, binds a
    [socketserver.TCPServer] to [0.0.0.0:port], optionally wraps the
    listening socket in TLS, prints a banner and serves a fixed HTML page
    to every GET request until it is interrupted.

    The script itself is pure glue around the Python standard library, so
    the embedding has two layers:

    - the script's own code ([message], [do_GET], [create_test_server],
      [main]) is translated line by line;
    - every standard-library call it makes ([argparse], [socketserver],
      [ssl], [socket]) is given the behaviour documented for CPython,
      with its answers supplied by an explicit [world] (what the operating
      system, the file system and the network do).

    A run is a list of observable [event]s together with the way the
    process ends. *)

From Stdlib Require Import ZArith String Ascii List Bool Lia.
From Stdlib Require Import DecimalString DecimalZ DecimalPos.
Import ListNotations.

Open Scope string_scope.
Open Scope Z_scope.

(* ================================================================== *)
(** ** Python strings *)

(** A Python [str] is kept as its UTF-8 bytes (a Rocq [string]); the
    script only concatenates and encodes, so [bytes(message, "utf8")] is
    the identity on this representation. *)

Definition nl : string := String "010"%char EmptyString.
Definition dq : string := String "034"%char EmptyString.

(** [str(n)] for a Python [int], as used by [f"{port}"]. *)
Definition str_int (n : Z) : string :=
  NilZero.string_of_int (Z.to_int n).

(** [int(s)] for the words that reach it from [argparse]: an optional sign
    followed by at least one ASCII digit; [None] stands for [ValueError].
    This is [int] with the interpreter's limit on the length of decimal
    numerals lifted ([sys.set_int_max_str_digits(0)]); what the limit
    changes is stated by [int_default] below. *)
Definition py_int (s : string) : option Z :=
  match s with
  | String "+"%char s' => option_map Z.of_uint (NilZero.uint_of_string s')
  | _ => option_map Z.of_int (NilZero.int_of_string s)
  end.

(** [sys.int_info.default_max_str_digits] *)
Definition default_max_str_digits : nat := 4300.

Definition is_digit (c : ascii) : bool :=
  let n := nat_of_ascii c in (Nat.leb 48 n && Nat.leb n 57)%bool.

Fixpoint count_digits (s : string) : nat :=
  match s with
  | EmptyString => O
  | String c s' => ((if is_digit c then 1 else 0) + count_digits s')%nat
  end.

(** [int(s)] as the interpreter is configured by default: a numeral of
    more than 4300 digits is refused with [ValueError]. *)
Definition int_default (s : string) : option Z :=
  if Nat.leb (count_digits s) default_max_str_digits then py_int s else None.

(** The decimal numeral of [n] is within the default limit. *)
Definition within_int_limit (n : Z) : bool :=
  Nat.leb (count_digits (str_int n)) default_max_str_digits.

(** [s.startswith(p)] *)
Fixpoint startswith (p s : string) : bool :=
  match p with
  | EmptyString => true
  | String a p' =>
      match s with
      | EmptyString => false
      | String b s' => Ascii.eqb a b && startswith p' s'
      end
  end.

(** [p in s] *)
Fixpoint contains (p s : string) : bool :=
  startswith p s ||
  match s with
  | EmptyString => false
  | String _ s' => contains p s'
  end.

(** [c in s] for a single character. *)
Fixpoint occurs (c : ascii) (s : string) : bool :=
  match s with
  | EmptyString => false
  | String b s' => Ascii.eqb c b || occurs c s'
  end.

(** [s * n] *)
Fixpoint str_mul (s : string) (n : nat) : string :=
  match n with
  | O => EmptyString
  | S n' => s ++ str_mul s n'
  end.




(* ================================================================== *)
(** ** Exceptions, events and the effect monad *)

Inductive errno := EADDRINUSE | EACCES.

Inductive exn :=
| OverflowError                      (* bind(): port must be 0-65535 *)
| OSError (e : errno)                (* bind()/listen() refused by the OS *)
| FileNotFoundError                  (* key or certificate file missing *)
| SSLError                           (* key and certificate unusable *)
| gaierror                           (* socket.gethostbyname failed *)
| ConnectionResetError               (* peer reset while reading *)
| KeyboardInterrupt
| SystemExit (code : Z).

(** [KeyboardInterrupt] and [SystemExit] derive from [BaseException]
    only; [except Exception] does not catch them. *)
Definition is_Exception (e : exn) : bool :=
  match e with
  | KeyboardInterrupt | SystemExit _ => false
  | _ => true
  end.

(** The exceptions that [except OSError] catches. *)
Definition is_OSError (e : exn) : bool :=
  match e with
  | OSError _ | FileNotFoundError | SSLError | gaierror
  | ConnectionResetError => true
  | OverflowError | KeyboardInterrupt | SystemExit _ => false
  end.

(** What goes to the peer of a connection.  [send_response] and
    [send_header] fill the header buffer, [end_headers] terminates it and
    flushes it to the (unbuffered) socket file, [wfile.write] sends body
    bytes.  The line that [send_response] logs on stderr for each request
    is not recorded. *)
Inductive sent :=
| StatusLine (code : Z)
| Header (name value : string)
| EndHeaders
| Body (bytes : string)
| ErrorReply (code : Z)              (* the framework's send_error(code) *)
| FrameworkReply (request : string). (* the answer of another do_ method *)

Inductive event :=
| Stdout (text : string)             (* print(text) *)
| StderrUsage (msg : string)         (* argparse: usage line and "error: msg" *)
| StdoutHelp                         (* argparse: help text *)
| StderrTraceback (e : exn)          (* traceback of [e] on stderr *)
| SockBind (addr : string) (port : Z)
| SockListen
| SockTlsWrap (keyfile certfile : string)
| Accepted (client : string)         (* accept() returned this peer *)
| Wire (client : string) (what : sent)
| ConnClosed (client : string)
| SockClosed.                        (* the listening socket is closed *)

(** How a computation ends: it returns, it raises, or it is still
    blocked in a system call when the recorded input runs out. *)
Inductive result (A : Type) :=
| Ok (a : A)
| Raise (e : exn)
| Blocked.
Arguments Ok {A} a.
Arguments Raise {A} e.
Arguments Blocked {A}.

(** Output plus outcome. *)
Definition M (A : Type) : Type := (list event * result A)%type.

Definition ret {A} (a : A) : M A := ([], Ok a).
Definition emit (e : event) : M unit := ([e], Ok tt).
Definition raise {A} (e : exn) : M A := ([], Raise e).
Definition blocked {A} : M A := ([], Blocked).

Definition bind {A B} (m : M A) (k : A -> M B) : M B :=
  match m with
  | (tr, Ok a) => let (tr', r) := k a in ((tr ++ tr')%list, r)
  | (tr, Raise e) => (tr, Raise e)
  | (tr, Blocked) => (tr, Blocked)
  end.

Notation "x <- m ;; k" := (bind m (fun x => k))
  (at level 61, m at next level, right associativity).
Notation "m ;; k" := (bind m (fun _ => k))
  (at level 61, right associativity).

Definition trace {A} (m : M A) : list event := fst m.
Definition outcome {A} (m : M A) : result A := snd m.

(** [print(text)]; the console is taken to accept what is printed. *)
Definition print (text : string) : M unit := emit (Stdout text).

(* ================================================================== *)
(** ** The world *)

(** What [socket.gethostname()] and [socket.gethostbyname(name)] answer
    at one moment; [None] is a failed lookup ([socket.gaierror]). *)
Record hostenv := {
  env_hostname : string;
  env_lookup : string -> option string
}.

Definition gethostname (h : hostenv) : M string := ret (env_hostname h).

Definition gethostbyname (h : hostenv) (name : string) : M string :=
  match env_lookup h name with
  | Some ip => ret ip
  | None => raise gaierror
  end.

(* ================================================================== *)
(** ** The request handler: [MyHandler.do_GET] *)

(** The f-string of lines 19-49.  [{{] and [}}] are literal braces. *)
Definition message (port : Z) (hostname local_ip : string) (use_ssl : bool)
    (client : string) : string :=
  nl ++
  "            <!DOCTYPE html>" ++ nl ++
  "            <html>" ++ nl ++
  "            <head>" ++ nl ++
  "                <title>端口测试成功</title>" ++ nl ++
  "                <meta charset=" ++ dq ++ "utf-8" ++ dq ++ ">" ++ nl ++
  "                <style>" ++ nl ++
  "                    body { font-family: Arial, sans-serif; margin: 40px; background: #f0f0f0; }" ++ nl ++
  "                    .container { background: white; padding: 30px; border-radius: 10px; box-shadow: 0 2px 10px rgba(0,0,0,0.1); }" ++ nl ++
  "                    .success { color: #28a745; font-size: 24px; font-weight: bold; }" ++ nl ++
  "                    .info { color: #17a2b8; margin: 10px 0; }" ++ nl ++
  "                    .highlight { background: #fff3cd; padding: 10px; border-radius: 5px; margin: 10px 0; }" ++ nl ++
  "                </style>" ++ nl ++
  "            </head>" ++ nl ++
  "            <body>" ++ nl ++
  "                <div class=" ++ dq ++ "container" ++ dq ++ ">" ++ nl ++
  "                    <div class=" ++ dq ++ "success" ++ dq ++ ">🎉 端口 " ++ str_int port ++ " 开放成功!</div>" ++ nl ++
  "                    <div class=" ++ dq ++ "info" ++ dq ++ ">服务器信息:</div>" ++ nl ++
  "                    <div class=" ++ dq ++ "highlight" ++ dq ++ ">" ++ nl ++
  "                        <strong>主机名:</strong> " ++ hostname ++ "<br>" ++ nl ++
  "                        <strong>内网IP:</strong> " ++ local_ip ++ "<br>" ++ nl ++
  "                        <strong>监听端口:</strong> " ++ str_int port ++ "<br>" ++ nl ++
  "                        <strong>协议:</strong> " ++ (if use_ssl then "HTTPS" else "HTTP") ++ "<br>" ++ nl ++
  "                        <strong>客户端IP:</strong> " ++ client ++ nl ++
  "                    </div>" ++ nl ++
  "                    <div class=" ++ dq ++ "info" ++ dq ++ ">✅ 防火墙配置正确</div>" ++ nl ++
  "                    <div class=" ++ dq ++ "info" ++ dq ++ ">✅ 服务正常运行</div>" ++ nl ++
  "                </div>" ++ nl ++
  "            </body>" ++ nl ++
  "            </html>" ++ nl ++
  "            ".

(** [self.request_version]: ['HTTP/0.9'] for a request line without a
    version (the default of [parse_request]), otherwise the version of
    the request line, which [parse_request] only lets through when it is
    below 2.0. *)
Inductive http_version := HTTP_0_9 | HTTP_1_x.

(** The part of the handler instance [self] that [do_GET] uses. *)
Record request_handler := {
  client_address : string;        (* self.client_address[0] *)
  request_version : http_version
}.

(** [BaseHTTPRequestHandler.send_response], [send_header] and
    [end_headers]: each of them does nothing when the request version is
    ['HTTP/0.9']. *)
Definition send_response (self : request_handler) (code : Z) : M unit :=
  match request_version self with
  | HTTP_0_9 => ret tt
  | HTTP_1_x => emit (Wire (client_address self) (StatusLine code))
  end.

Definition send_header (self : request_handler) (name value : string)
    : M unit :=
  match request_version self with
  | HTTP_0_9 => ret tt
  | HTTP_1_x => emit (Wire (client_address self) (Header name value))
  end.

Definition end_headers (self : request_handler) : M unit :=
  match request_version self with
  | HTTP_0_9 => ret tt
  | HTTP_1_x => emit (Wire (client_address self) EndHeaders)
  end.

(** [self.wfile.write(bytes)] *)
Definition wfile_write (self : request_handler) (bytes : string) : M unit :=
  emit (Wire (client_address self) (Body bytes)).

(** [do_GET], lines 10-50.  [port] and [use_ssl] are the variables of
    [create_test_server] captured by the class body; the method has no
    [nonlocal] or [global] statement, so it can read them and cannot
    rebind them.  [now] is what the host-name calls answer while this
    request is handled.  The request path is never read. *)
Definition do_GET (port : Z) (use_ssl : bool) (self : request_handler)
    (now : hostenv) : M unit :=
  send_response self 200 ;;
  send_header self "Content-type" "text/html; charset=utf-8" ;;
  end_headers self ;;
  hostname <- gethostname now ;;
  local_ip <- gethostbyname now hostname ;;
  wfile_write self
    (message port hostname local_ip use_ssl (client_address self)).

(* ================================================================== *)
(** ** [try] / [except] / [finally] *)

Definition try_except {A} (m : M A) (handler : exn -> M A) : M A :=
  match m with
  | (tr, Raise e) => let (tr', r) := handler e in ((tr ++ tr')%list, r)
  | _ => m
  end.

Definition try_finally {A} (m : M A) (cleanup : M unit) : M A :=
  match m with
  | (tr, Ok a) => (tr, Ok tt) ;; cleanup ;; ret a
  | (tr, Raise e) => (tr, Ok tt) ;; cleanup ;; raise e
  | (tr, Blocked) => (tr, Blocked)
  end.

(* ================================================================== *)
(** ** What reaches the accept loop *)

(** What the peer of one incoming connection does. *)
Inductive conn_behaviour :=
| HandshakeFails           (* accept() raises: the TLS handshake that the
                              wrapped socket runs inside accept() fails,
                              and the new socket is closed again *)
| Hangup                   (* accepted; the peer closes without a request *)
| PeerReset                (* accepted; reading the request raises
                              ConnectionResetError *)
| SigintInHandler          (* accepted; Ctrl+C arrives while the handler
                              runs, before it has written anything *)
| Get (path : string)      (* the request line "GET path HTTP/1.x", at most
                              65536 bytes long and followed by headers
                              within the limits of http.client, from a
                              peer that stays to read the answer *)
| GetSimple (path : string) (* the request line "GET path", without a
                              version, from a peer that stays *)
| GetRefused (code : Z)    (* a GET request that the framework answers
                              itself, without calling do_GET: 414 (line
                              over 65536 bytes), 431 (header line too long
                              or more than 100 headers), 400 (more than
                              three words, malformed version), 505
                              (version 2.0 or above) *)
| NotGet (request : string). (* any request not dispatched to do_GET *)

Record connection := {
  peer : string;           (* client_address[0] *)
  does : conn_behaviour;
  host_now : hostenv       (* the host-name answers while it is handled *)
}.

(** Where a peer that has connected falls silent. *)
Inductive stall_point :=
| InHandshake              (* TLS only: before the handshake is complete;
                              accept() itself waits *)
| BeforeRequest.           (* connected (with TLS: handshake done), then
                              no request line: the handler waits in
                              rfile.readline *)

Inductive stimulus :=
| Interrupt                (* Ctrl+C while the loop waits in select() *)
| Conn (c : connection)
| Stall (client : string) (point : stall_point).
                           (* a peer that connects and stays silent, with
                              the connection open, from then on *)

Definition is_interrupt (s : stimulus) : bool :=
  match s with
  | Interrupt => true
  | Conn c => match does c with SigintInHandler => true | _ => false end
  | Stall _ _ => false
  end.

Inductive file_state := Absent | Present.

Record world := {
  os_bind : Z -> option errno;   (* bind()+listen() on 0.0.0.0:port *)
  fs : string -> file_state;     (* files of the working directory *)
  pair_valid : bool;             (* key and certificate load as a pair *)
  boot_host : hostenv;           (* host-name answers during startup *)
  arrivals : list stimulus       (* what reaches the accept loop, in order *)
}.

(* ================================================================== *)
(** ** [socketserver] and [ssl] *)

(** [socketserver.TCPServer((addr, port), Handler)]: the constructor binds
    and listens; when either fails it calls [server_close()] and re-raises.
    [socket.bind] itself rejects a port outside 0..65535 with
    [OverflowError] before the operating system is asked. *)
Definition TCPServer (w : world) (addr : string) (port : Z) : M unit :=
  try_except
    (if (port <? 0) || (65535 <? port) then raise OverflowError
     else match os_bind w port with
          | Some e => raise (OSError e)
          | None => emit (SockBind addr port) ;; emit SockListen
          end)
    (fun e => emit SockClosed ;; raise e).

(** [ssl.wrap_socket(sock, keyfile=..., certfile=..., server_side=True)]:
    loads the certificate chain and the key, then wraps the socket. *)
Definition wrap_socket (w : world) (keyfile certfile : string) : M unit :=
  match fs w certfile, fs w keyfile with
  | Present, Present =>
      if pair_valid w then emit (SockTlsWrap keyfile certfile)
      else raise SSLError
  | _, _ => raise FileNotFoundError
  end.

(** [TCPServer.get_request]: [self.socket.accept()]. *)
Definition get_request (c : connection) : M unit :=
  match does c with
  | HandshakeFails => emit (ConnClosed (peer c)) ;; raise SSLError
  | _ => emit (Accepted (peer c))
  end.

(** [BaseHTTPRequestHandler.handle] on an accepted connection, with
    [handler] the [do_GET] of the handler class: [handle_one_request]
    reads the request line, [parse_request] checks it and sets
    [request_version], and the method named after the command is called.
    The server's [protocol_version] is ['HTTP/1.0'], so [close_connection]
    stays set and each connection carries one request. *)
Definition handle (handler : request_handler -> hostenv -> M unit)
    (c : connection) : M unit :=
  match does c with
  | HandshakeFails | Hangup => ret tt
  | PeerReset => raise ConnectionResetError
  | SigintInHandler => raise KeyboardInterrupt
  | Get _ =>
      handler {| client_address := peer c; request_version := HTTP_1_x |}
              (host_now c)
  | GetSimple _ =>
      handler {| client_address := peer c; request_version := HTTP_0_9 |}
              (host_now c)
  | GetRefused code => emit (Wire (peer c) (ErrorReply code))
  | NotGet request => emit (Wire (peer c) (FrameworkReply request))
  end.

Definition shutdown_request (c : connection) : M unit :=
  emit (ConnClosed (peer c)).

(** [BaseServer.process_request]: [finish_request], which runs the
    handler, then [shutdown_request]. *)
Definition process_request (handler : request_handler -> hostenv -> M unit)
    (c : connection) : M unit :=
  handle handler c ;; shutdown_request c.

(** [BaseServer.handle_error]: a traceback on stderr. *)
Definition handle_error (e : exn) : M unit := emit (StderrTraceback e).

(** [BaseServer._handle_request_noblock]:
<<
    try: request, client_address = self.get_request()
    except OSError: return
    try: self.process_request(request, client_address)
    except Exception:
        self.handle_error(request, client_address)
        self.shutdown_request(request)
    except:
        self.shutdown_request(request); raise
>>
*)
Definition handle_request_noblock
    (handler : request_handler -> hostenv -> M unit)
    (c : connection) : M unit :=
  accepted <-
    try_except
      (get_request c ;; ret true)
      (fun e => if is_OSError e then ret false else raise e) ;;
  if accepted : bool then
    try_except
      (process_request handler c)
      (fun e =>
         if is_Exception e then handle_error e ;; shutdown_request c
         else shutdown_request c ;; raise e)
  else ret tt.

(** A peer that has connected and stays silent.  No timeout is set on
    any socket ([timeout = None] in [socketserver]) and the loop has one
    thread, so the server waits for this peer and accepts nobody else;
    the wait ends only with Ctrl+C, which raises [KeyboardInterrupt]
    where the server waits: inside [get_request], where nothing catches
    it, or inside the handler, where [_handle_request_noblock] closes the
    connection and re-raises.  [interrupted] tells whether Ctrl+C ever
    comes. *)
Definition wait_for_peer (client : string) (point : stall_point)
    (interrupted : bool) : M unit :=
  match point with
  | InHandshake =>
      if interrupted then raise KeyboardInterrupt else blocked
  | BeforeRequest =>
      emit (Accepted client) ;;
      if interrupted
      then emit (ConnClosed client) ;; raise KeyboardInterrupt
      else blocked
  end.

(** [BaseServer.serve_forever]: one connection at a time, until an
    exception escapes.  With no input left the loop is waiting. *)
Fixpoint serve_forever (handler : request_handler -> hostenv -> M unit)
    (input : list stimulus) : M unit :=
  match input with
  | [] => blocked
  | Interrupt :: _ => raise KeyboardInterrupt
  | Conn c :: rest =>
      handle_request_noblock handler c ;; serve_forever handler rest
  | Stall client point :: rest =>
      wait_for_peer client point (existsb is_interrupt rest)
  end.

(* ================================================================== *)
(** ** [create_test_server], lines 7-87 *)

Definition bind_address : string := "0.0.0.0".

Definition shutdown_message : string := nl ++ "🛑 服务器已停止".

Definition create_test_server (port : Z) (use_ssl : bool) (w : world)
    : M unit :=
  let MyHandler := do_GET port use_ssl in
  protocol <-
    (if use_ssl then
       TCPServer w bind_address port ;;
       wrap_socket w "key.pem" "cert.pem" ;;
       ret "HTTPS"
     else
       TCPServer w bind_address port ;;
       ret "HTTP") ;;
  hostname <- gethostname (boot_host w) ;;
  local_ip <- gethostbyname (boot_host w) hostname ;;
  print ("🚀 " ++ protocol ++ " 服务器启动成功!") ;;
  print ("📍 监听地址: " ++ bind_address ++ ":" ++ str_int port) ;;
  print ("🏠 主机名: " ++ hostname) ;;
  print ("🌐 内网IP: " ++ local_ip) ;;
  print EmptyString ;;
  print "📱 访问地址:" ;;
  print ("   本机访问: http://localhost:" ++ str_int port) ;;
  print ("   局域网访问: http://" ++ local_ip ++ ":" ++ str_int port) ;;
  print EmptyString ;;
  print "⏹️  按 Ctrl+C 停止服务器" ;;
  print (str_mul "-" 50) ;;
  try_finally
    (try_except
       (serve_forever MyHandler (arrivals w))
       (fun e =>
          match e with
          | KeyboardInterrupt => print shutdown_message
          | _ => raise e
          end))
    (emit SockClosed).

(* ================================================================== *)
(** ** [argparse], as configured on lines 90-94 *)

(** The parser knows [-h]/[--help] (added by default), [--ssl]
    ([store_true]) and one positional [port] of [type=int].

    The model covers command-line words made of printable ASCII without
    blanks, [=] or [_], and leaves aside the [--] separator and letters
    glued to [-h]; a command line with any other word is [OutsideModel]. *)

Inductive token :=
| TPositional (s : string)
| TSsl                      (* [--ssl] or an abbreviation of it *)
| THelp                     (* [-h], [--help] or an abbreviation *)
| TUnknown (s : string).    (* looks like an option, matches none *)

Definition plain_ascii (c : ascii) : bool :=
  let n := nat_of_ascii c in
  (Nat.leb 33 n && Nat.leb n 126 && negb (Nat.eqb n 61) && negb (Nat.eqb n 95))%bool.

Fixpoint plain_word (s : string) : bool :=
  match s with
  | EmptyString => true
  | String c s' => plain_ascii c && plain_word s'
  end.

Fixpoint all_digits (s : string) : bool :=
  match s with
  | EmptyString => true
  | String c s' => is_digit c && all_digits s'
  end.

(** [digits* "." digits+] *)
Fixpoint dotted_digits (s : string) : bool :=
  match s with
  | EmptyString => false
  | String c s' =>
      if Ascii.eqb c "."%char
      then all_digits s' && negb (String.eqb s' EmptyString)
      else is_digit c && dotted_digits s'
  end.

(** argparse's [_negative_number_matcher], ['^-\d+$|^-\d*\.\d+$'], applied
    to the text after the dash. *)
Definition negative_number_tail (r : string) : bool :=
  (all_digits r && negb (String.eqb r EmptyString)) || dotted_digits r.

(** [ArgumentParser._parse_optional] with abbreviations allowed; [None]
    for a word outside the modelled fragment. *)
Definition classify (a : string) : option token :=
  if negb (plain_word a) then None
  else
    match a with
    | String "-"%char (String "-"%char r) =>
        if String.eqb r EmptyString then None
        else if startswith r "ssl" then Some TSsl
        else if startswith r "help" then Some THelp
        else Some (TUnknown a)
    | String "-"%char (String "h"%char r) =>
        if String.eqb r EmptyString then Some THelp else None
    | String "-"%char EmptyString => Some (TPositional a)
    | String "-"%char r =>
        if negative_number_tail r then Some (TPositional a)
        else Some (TUnknown a)
    | _ => Some (TPositional a)
    end.

Fixpoint classify_all (argv : list string) : option (list token) :=
  match argv with
  | [] => Some []
  | a :: argv' =>
      match classify a, classify_all argv' with
      | Some t, Some ts => Some (t :: ts)
      | _, _ => None
      end
  end.

Record Namespace := { args_port : Z; args_ssl : bool }.

Inductive parse_outcome :=
| Parsed (args : Namespace)
| PrintHelp                   (* help text, exit status 0 *)
| ParserError (msg : string). (* usage and message on stderr, exit status 2 *)

Fixpoint join_words (ws : list string) : string :=
  match ws with
  | [] => EmptyString
  | [w] => w
  | w :: ws' => w ++ " " ++ join_words ws'
  end.

(** The left-to-right pass of [parse_known_args] followed by the checks of
    [parse_args]: the first positional word is converted by [int], later
    ones and unknown options are collected, help exits at once; at the end
    a missing [port] is reported before leftover words are. *)
Fixpoint consume (ts : list token) (port : option Z) (ssl : bool)
    (extras : list string) : parse_outcome :=
  match ts with
  | [] =>
      match port with
      | None => ParserError "the following arguments are required: port"
      | Some p =>
          match extras with
          | [] => Parsed {| args_port := p; args_ssl := ssl |}
          | _ => ParserError ("unrecognized arguments: " ++ join_words extras)
          end
      end
  | TPositional s :: ts' =>
      match port with
      | None =>
          match py_int s with
          | Some p => consume ts' (Some p) ssl extras
          | None =>
              ParserError ("argument port: invalid int value: '" ++ s ++ "'")
          end
      | Some _ => consume ts' port ssl (extras ++ [s])%list
      end
  | TSsl :: ts' => consume ts' port true extras
  | THelp :: _ => PrintHelp
  | TUnknown s :: ts' => consume ts' port ssl (extras ++ [s])%list
  end.

(** [parser.parse_args()] on [sys.argv[1:]]; [None] when the command line
    is outside the modelled fragment. *)
Definition parse_args (argv : list string) : option (M Namespace) :=
  option_map
    (fun ts =>
       match consume ts None false [] with
       | Parsed args => ret args
       | PrintHelp => emit StdoutHelp ;; raise (SystemExit 0)
       | ParserError msg => emit (StderrUsage msg) ;; raise (SystemExit 2)
       end)
    (classify_all argv).

(* ================================================================== *)
(** ** The script body, lines 89-101 *)

Definition main (argv : list string) (w : world) : option (M unit) :=
  option_map
    (fun parsed =>
       args <- parsed ;;
       print "🔧 准备启动测试服务器..." ;;
       print ("📋 端口: " ++ str_int (args_port args)) ;;
       print ("🔒 SSL: " ++ (if args_ssl args then "启用" else "禁用")) ;;
       print EmptyString ;;
       create_test_server (args_port args) (args_ssl args) w)
    (parse_args argv).

(** The interpreter around the script: an exception that reaches the top
    is printed as a traceback and gives exit status 1, [SystemExit] gives
    its code, a normal end gives 0.  [None]: the process has not ended. *)
Definition python (m : M unit) : list event * option Z :=
  match m with
  | (tr, Ok _) => (tr, Some 0)
  | (tr, Raise (SystemExit code)) => (tr, Some code)
  | (tr, Raise e) => ((tr ++ [StderrTraceback e])%list, Some 1)
  | (tr, Blocked) => (tr, None)
  end.

(** A whole run of [python open-port-test.py argv...] in world [w]. *)
Definition run (argv : list string) (w : world)
    : option (list event * option Z) :=
  option_map python (main argv w).

(* ================================================================== *)
(** ** Observations on runs *)

Definition is_accept (e : event) : bool :=
  match e with Accepted _ => true | _ => false end.

Definition is_wire (e : event) : bool :=
  match e with Wire _ _ => true | _ => false end.

Definition is_listen (e : event) : bool :=
  match e with SockListen => true | _ => false end.

Definition is_usage (e : event) : bool :=
  match e with StderrUsage _ => true | _ => false end.

Definition is_traceback (e : event) : bool :=
  match e with StderrTraceback _ => true | _ => false end.

(** No stimulus of the input interrupts the loop. *)
Definition calm (input : list stimulus) : bool :=
  forallb (fun s => negb (is_interrupt s)) input.

Definition is_conn_closed (e : event) : bool :=
  match e with ConnClosed _ => true | _ => false end.

Definition is_sock_closed (e : event) : bool :=
  match e with SockClosed => true | _ => false end.

Definition is_tls_wrap (e : event) : bool :=
  match e with SockTlsWrap _ _ => true | _ => false end.

(** How many events of a trace satisfy a test. *)
Definition count (test : event -> bool) (tr : list event) : nat :=
  length (filter test tr).

(** The connection gets through [accept()]. *)
Definition gets_accepted (s : stimulus) : bool :=
  match s with
  | Interrupt => false
  | Conn c => match does c with HandshakeFails => false | _ => true end
  | Stall _ InHandshake => false
  | Stall _ BeforeRequest => true
  end.

(** Every stimulus of the input is a connection that comes to an end by
    itself: no interrupt, no silent peer. *)
Definition steady (input : list stimulus) : bool :=
  forallb
    (fun s =>
       match s with
       | Conn c => negb (is_interrupt (Conn c))
       | Interrupt | Stall _ _ => false
       end)
    input.

(** Every [Wire] event of a trace is addressed to [client]. *)
Definition only_writes_to (client : string) (tr : list event) : Prop :=
  forall p what, In (Wire p what) tr -> p = client.

(** The body bytes a run of the handler wrote, if any. *)
Fixpoint body_of (tr : list event) : option string :=
  match tr with
  | [] => None
  | Wire _ (Body b) :: _ => Some b
  | _ :: tr' => body_of tr'
  end.

(** The startup sequence of [create_test_server] goes through. *)
Definition startup_ok (port : Z) (use_ssl : bool) (w : world) : bool :=
  (0 <=? port) && (port <=? 65535) &&
  match os_bind w port with None => true | Some _ => false end &&
  (negb use_ssl ||
   match fs w "cert.pem", fs w "key.pem" with
   | Present, Present => pair_valid w
   | _, _ => false
   end) &&
  match env_lookup (boot_host w) (env_hostname (boot_host w)) with
  | Some _ => true
  | None => false
  end.

(** The same world with another input to the accept loop. *)
Definition with_arrivals (w : world) (input : list stimulus) : world :=
  {| os_bind := os_bind w; fs := fs w; pair_valid := pair_valid w;
     boot_host := boot_host w; arrivals := input |}.

(** What the loop does for each element of an input, taken one by one;
    a silent peer is the last one the loop gets to. *)
Fixpoint served (handler : request_handler -> hostenv -> M unit)
    (input : list stimulus) : list event :=
  match input with
  | [] => []
  | Interrupt :: rest => served handler rest
  | Conn c :: rest =>
      (trace (handle_request_noblock handler c) ++ served handler rest)%list
  | Stall client point :: rest =>
      trace (wait_for_peer client point (existsb is_interrupt rest))
  end.

(** The command line [port] or [port --ssl]. *)
Definition command_line (port : Z) (use_ssl : bool) : list string :=
  str_int port :: (if use_ssl then ["--ssl"] else []).

(** What the script prints before it calls [create_test_server]. *)
Definition preamble (port : Z) (use_ssl : bool) : list event :=
  [ Stdout "🔧 准备启动测试服务器...";
    Stdout ("📋 端口: " ++ str_int port);
    Stdout ("🔒 SSL: " ++ (if use_ssl then "启用" else "禁用"));
    Stdout EmptyString ].

(** What a successful startup shows before the accept loop is entered:
    lines 55-80 with [local_ip] the address found for the host name. *)
Definition startup_trace (port : Z) (use_ssl : bool) (hostname local_ip : string)
    : list event :=
  ([ SockBind bind_address port; SockListen ] ++
   (if use_ssl then [ SockTlsWrap "key.pem" "cert.pem" ] else []) ++
   [ Stdout ("🚀 " ++ (if use_ssl then "HTTPS" else "HTTP") ++ " 服务器启动成功!");
    Stdout ("📍 监听地址: " ++ bind_address ++ ":" ++ str_int port);
    Stdout ("🏠 主机名: " ++ hostname);
    Stdout ("🌐 内网IP: " ++ local_ip);
    Stdout EmptyString;
    Stdout "📱 访问地址:";
    Stdout ("   本机访问: http://localhost:" ++ str_int port);
    Stdout ("   局域网访问: http://" ++ local_ip ++ ":" ++ str_int port);
    Stdout EmptyString;
    Stdout "⏹️  按 Ctrl+C 停止服务器";
    Stdout (str_mul "-" 50) ])%list.

(** Lines 82-87 on their own: the [try] statement around
    [serve_forever]. *)
Definition accept_loop (port : Z) (use_ssl : bool) (input : list stimulus)
    : M unit :=
  try_finally
    (try_except
       (serve_forever (do_GET port use_ssl) input)
       (fun e =>
          match e with
          | KeyboardInterrupt => print shutdown_message
          | _ => raise e
          end))
    (emit SockClosed).

(** A connection fails on its own account: refused handshake, hang-up,
    reset, or a host lookup that fails while its GET is handled. *)
Definition connection_error (c : connection) : bool :=
  match does c with
  | HandshakeFails | Hangup | PeerReset => true
  | Get _ | GetSimple _ =>
      match env_lookup (host_now c) (env_hostname (host_now c)) with
      | None => true
      | Some _ => false
      end
  | SigintInHandler | GetRefused _ | NotGet _ => false
  end.

(* ================================================================== *)
(** ** The properties under study, as predicates on the model *)


(** Without TLS, the page written for a GET shows "HTTP" and the port and
    nowhere "HTTPS". *)
Definition plain_page_without_https (port : Z) (c : connection) : Prop :=
  forall body,
    body_of (trace (handle_request_noblock (do_GET port false) c)) = Some body ->
    contains "HTTP" body = true
    /\ contains (str_int port) body = true
    /\ contains "HTTPS" body = false.

(** The run ends in an argument-parsing error: usage text, a non-zero
    exit status, and no listening socket. *)
Definition rejected_by_parser (argv : list string) (w : world) : Prop :=
  exists tr code,
    run argv w = Some (tr, Some code)
    /\ code <> 0
    /\ existsb is_usage tr = true
    /\ existsb is_listen tr = false.


(** The run ends with a non-zero exit status, without a connection
    accepted and without a socket that listens and is not wrapped in
    TLS. *)
Definition fails_without_plain_listener (argv : list string) (w : world)
    : Prop :=
  exists tr code,
    run argv w = Some (tr, Some code)
    /\ code <> 0
    /\ existsb is_accept tr = false
    /\ (existsb is_listen tr = true -> existsb is_tls_wrap tr = true).

(** After the stimulus, the loop accepts the next connection to arrive. *)
Definition keeps_accepting (port : Z) (use_ssl : bool) (s : stimulus) : Prop :=
  forall next rest,
    gets_accepted (Conn next) = true ->
    In (Accepted (peer next))
       (trace (serve_forever (do_GET port use_ssl) (s :: Conn next :: rest))).


(** The command line is accepted, and the script goes on to call
    [create_test_server port use_ssl]. *)
Definition starts_server (argv : list string) (port : Z) (use_ssl : bool)
    : Prop :=
  forall w, main argv w =
    Some ((preamble port use_ssl, Ok tt) ;; create_test_server port use_ssl w).

(** The handler instance for a request of [client] with, or without, a
    version on its request line. *)
Definition versioned (client : string) : request_handler :=
  {| client_address := client; request_version := HTTP_1_x |}.

Definition versionless (client : string) : request_handler :=
  {| client_address := client; request_version := HTTP_0_9 |}.

(* ================================================================== *)
(** ** Sample hosts, peers and worlds *)

Definition lan_host : hostenv :=
  {| env_hostname := "WIN-SRV01";
     env_lookup := fun _ => Some "192.168.1.20" |}.

Definition unresolved_host : hostenv :=
  {| env_hostname := "WIN-SRV01"; env_lookup := fun _ => None |}.

Definition https_named_host : hostenv :=
  {| env_hostname := "HTTPS-GW";
     env_lookup := fun _ => Some "192.168.1.20" |}.

Definition get_from (client : string) (now : hostenv) : connection :=
  {| peer := client; does := Get "/anything"; host_now := now |}.

Definition behaving (client : string) (b : conn_behaviour) : connection :=
  {| peer := client; does := b; host_now := lan_host |}.

(** Every port free, key and certificate in place, nobody connecting. *)
Definition quiet_world : world :=
  {| os_bind := fun _ => None;
     fs := fun _ => Present;
     pair_valid := true;
     boot_host := lan_host;
     arrivals := [] |}.

(** As [quiet_world], without [key.pem], and with a client knocking. *)
Definition no_key_world : world :=
  {| os_bind := fun _ => None;
     fs := fun name => if String.eqb name "key.pem" then Absent else Present;
     pair_valid := true;
     boot_host := lan_host;
     arrivals := [Conn (get_from "203.0.113.9" lan_host)] |}.

(** Every port taken by another listener, and a client knocking. *)
Definition busy_world : world :=
  {| os_bind := fun _ => Some EADDRINUSE;
     fs := fun _ => Present;
     pair_valid := true;
     boot_host := lan_host;
     arrivals := [Conn (get_from "203.0.113.9" lan_host)] |}.

(** As [quiet_world], on a machine that cannot resolve its own name. *)
Definition unresolved_world : world :=
  {| os_bind := fun _ => None;
     fs := fun _ => Present;
     pair_valid := true;
     boot_host := unresolved_host;
     arrivals := [Conn (get_from "203.0.113.9" lan_host)] |}.

(** As [quiet_world], with one client served and then Ctrl+C. *)
Definition visited_world : world :=
  with_arrivals quiet_world [Conn (get_from "203.0.113.9" lan_host); Interrupt].

(* ================================================================== *)
(** * Proofs *)

(** ** Substrings *)

Lemma startswith_app p s : startswith p (p ++ s) = true.
Proof.
  induction p as [|a p IH]; simpl; [reflexivity|].
  now rewrite Ascii.eqb_refl, IH.
Qed.

Lemma contains_here p s : contains p (p ++ s) = true.
Proof.
  destruct p as [|a p]; [destruct s; reflexivity|].
  change (startswith (String a p) (String a p ++ s)
          || contains (String a p) (p ++ s) = true).
  now rewrite startswith_app.
Qed.

Lemma contains_later p a b :
  contains p b = true -> contains p (a ++ b) = true.
Proof.
  intros H. induction a as [|c a IH]; simpl; [exact H|].
  rewrite IH. apply orb_true_r.
Qed.

(** A character that is not in the pattern cuts every match. *)
Lemma startswith_sep p a c b :
  occurs c p = false -> startswith p (a ++ String c b) = startswith p a.
Proof.
  revert a. induction p as [|x p IH]; intros a H; [reflexivity|].
  simpl in H. apply orb_false_elim in H. destruct H as [Hx Hp].
  destruct a as [|y a]; simpl.
  - rewrite Ascii.eqb_sym, Hx. reflexivity.
  - now rewrite IH.
Qed.

Lemma contains_sep h p a c b :
  occurs c (String h p) = false ->
  contains (String h p) (a ++ String c b)
  = contains (String h p) a || contains (String h p) b.
Proof.
  intros H. induction a as [|y a IH].
  - change (EmptyString ++ String c b) with (String c b).
    change (contains (String h p) (String c b))
      with (startswith (String h p) (String c b) || contains (String h p) b).
    assert (E : startswith (String h p) (String c b) = false).
    { simpl in *. apply orb_false_elim in H. destruct H as [Hx _].
      rewrite Ascii.eqb_sym, Hx. reflexivity. }
    rewrite E. reflexivity.
  - change ((String y a) ++ String c b) with (String y (a ++ String c b)).
    change (contains (String h p) (String y (a ++ String c b)))
      with (startswith (String h p) (String y a ++ String c b)
            || contains (String h p) (a ++ String c b)).
    change (contains (String h p) (String y a))
      with (startswith (String h p) (String y a) || contains (String h p) a).
    rewrite startswith_sep by exact H. rewrite IH.
    now rewrite !orb_assoc.
Qed.

Lemma contains_no_head h p s :
  occurs h s = false -> contains (String h p) s = false.
Proof.
  induction s as [|c s IH]; intros H; [reflexivity|].
  simpl in H. apply orb_false_elim in H. destruct H as [Hc Hs].
  simpl. now rewrite Hc, IH.
Qed.

(** ** Decimal numerals *)

Lemma uint_no_H d : occurs "H" (NilEmpty.string_of_uint d) = false.
Proof. induction d; simpl; auto. Qed.

Lemma str_int_no_H n : occurs "H" (str_int n) = false.
Proof.
  unfold str_int.
  destruct (Z.to_int n) as [d|d]; destruct d; simpl; auto using uint_no_H.
Qed.

(** ** The page *)

Ltac find_piece :=
  unfold message;
  repeat first [ apply contains_here | apply contains_later ].

Lemma page_has_port port hn ip ssl client :
  contains (str_int port) (message port hn ip ssl client) = true.
Proof. find_piece. Qed.




Lemma page_has_label port hn ip (ssl : bool) client :
  contains (if ssl then "HTTPS" else "HTTP")
           (message port hn ip ssl client) = true.
Proof. destruct ssl; find_piece. Qed.

(** Where "HTTPS" can occur in a page served without TLS: only inside
    one of the three strings that come from outside. *)
Lemma https_in_plain_page port hn ip client :
  contains "HTTPS" (message port hn ip false client)
  = contains "HTTPS" hn || contains "HTTPS" ip || contains "HTTPS" client.
Proof.
  unfold message, nl, dq.
  cbn [append contains startswith Ascii.eqb Bool.eqb andb orb].
  repeat (rewrite contains_sep by reflexivity;
          cbn [append contains startswith Ascii.eqb Bool.eqb andb orb]).
  rewrite !(contains_no_head _ _ _ (str_int_no_H port)).
  cbn [orb]. rewrite ?orb_false_r, ?orb_assoc. reflexivity.
Qed.

(** ** The handler *)

Ltac run_do_GET H :=
  cbv [do_GET send_response send_header end_headers wfile_write versioned
       versionless request_version client_address gethostname gethostbyname
       bind emit ret raise];
  rewrite H; reflexivity.

Lemma do_GET_ok port use_ssl client now ip :
  env_lookup now (env_hostname now) = Some ip ->
  do_GET port use_ssl (versioned client) now =
    ([ Wire client (StatusLine 200);
       Wire client (Header "Content-type" "text/html; charset=utf-8");
       Wire client EndHeaders;
       Wire client (Body (message port (env_hostname now) ip use_ssl client)) ],
     Ok tt).
Proof. intros H. run_do_GET H. Qed.

Lemma do_GET_lookup_fails port use_ssl client now :
  env_lookup now (env_hostname now) = None ->
  do_GET port use_ssl (versioned client) now =
    ([ Wire client (StatusLine 200);
       Wire client (Header "Content-type" "text/html; charset=utf-8");
       Wire client EndHeaders ],
     Raise gaierror).
Proof. intros H. run_do_GET H. Qed.

Lemma do_GET_versionless_ok port use_ssl client now ip :
  env_lookup now (env_hostname now) = Some ip ->
  do_GET port use_ssl (versionless client) now =
    ([ Wire client (Body (message port (env_hostname now) ip use_ssl client)) ],
     Ok tt).
Proof. intros H. run_do_GET H. Qed.

Lemma do_GET_versionless_lookup_fails port use_ssl client now :
  env_lookup now (env_hostname now) = None ->
  do_GET port use_ssl (versionless client) now = ([], Raise gaierror).
Proof. intros H. run_do_GET H. Qed.

Ltac run_request :=
  unfold handle_request_noblock, get_request, process_request, handle;
  cbn [does peer host_now].

Lemma get_request_ok port use_ssl client path now ip :
  env_lookup now (env_hostname now) = Some ip ->
  handle_request_noblock (do_GET port use_ssl)
    {| peer := client; does := Get path; host_now := now |} =
    ([ Accepted client;
       Wire client (StatusLine 200);
       Wire client (Header "Content-type" "text/html; charset=utf-8");
       Wire client EndHeaders;
       Wire client (Body (message port (env_hostname now) ip use_ssl client));
       ConnClosed client ],
     Ok tt).
Proof.
  intros H. run_request.
  change {| client_address := client; request_version := HTTP_1_x |}
    with (versioned client).
  rewrite (do_GET_ok _ _ _ _ _ H). reflexivity.
Qed.

Lemma get_request_lookup_fails port use_ssl client path now :
  env_lookup now (env_hostname now) = None ->
  handle_request_noblock (do_GET port use_ssl)
    {| peer := client; does := Get path; host_now := now |} =
    ([ Accepted client;
       Wire client (StatusLine 200);
       Wire client (Header "Content-type" "text/html; charset=utf-8");
       Wire client EndHeaders;
       StderrTraceback gaierror;
       ConnClosed client ],
     Ok tt).
Proof.
  intros H. run_request.
  change {| client_address := client; request_version := HTTP_1_x |}
    with (versioned client).
  rewrite (do_GET_lookup_fails _ _ _ _ H). reflexivity.
Qed.

Lemma versionless_request_ok port use_ssl client path now ip :
  env_lookup now (env_hostname now) = Some ip ->
  handle_request_noblock (do_GET port use_ssl)
    {| peer := client; does := GetSimple path; host_now := now |} =
    ([ Accepted client;
       Wire client (Body (message port (env_hostname now) ip use_ssl client));
       ConnClosed client ],
     Ok tt).
Proof.
  intros H. run_request.
  change {| client_address := client; request_version := HTTP_0_9 |}
    with (versionless client).
  rewrite (do_GET_versionless_ok _ _ _ _ _ H). reflexivity.
Qed.

Lemma versionless_request_lookup_fails port use_ssl client path now :
  env_lookup now (env_hostname now) = None ->
  handle_request_noblock (do_GET port use_ssl)
    {| peer := client; does := GetSimple path; host_now := now |} =
    ([ Accepted client; StderrTraceback gaierror; ConnClosed client ], Ok tt).
Proof.
  intros H. run_request.
  change {| client_address := client; request_version := HTTP_0_9 |}
    with (versionless client).
  rewrite (do_GET_versionless_lookup_fails _ _ _ _ H). reflexivity.
Qed.

(** ** Numerals on the command line *)

Lemma uint_all_digits d : all_digits (NilEmpty.string_of_uint d) = true.
Proof. induction d; simpl; auto. Qed.

Lemma uint_plain_word d : plain_word (NilEmpty.string_of_uint d) = true.
Proof. induction d; simpl; auto. Qed.

(** The numeral of a positive number: a digit followed by digits. *)
Lemma pos_numeral p :
  exists c rest,
    NilZero.string_of_uint (Pos.to_uint p) = String c rest
    /\ is_digit c = true /\ all_digits rest = true /\ plain_word rest = true.
Proof.
  pose proof (Unsigned.to_uint_nonnil p) as Hn.
  destruct (Pos.to_uint p) as [|d|d|d|d|d|d|d|d|d|d]; [congruence| ..];
    (eexists; eexists; split; [reflexivity|];
     split; [reflexivity|]; split; [apply uint_all_digits|apply uint_plain_word]).
Qed.

Lemma digit_cases c :
  is_digit c = true ->
  In c ["0"; "1"; "2"; "3"; "4"; "5"; "6"; "7"; "8"; "9"]%char.
Proof.
  destruct c as [[] [] [] [] [] [] [] []]; cbv; intros H;
    try discriminate H; tauto.
Qed.

Lemma classify_str_int n : classify (str_int n) = Some (TPositional (str_int n)).
Proof.
  unfold str_int. destruct n as [|p|p]; [reflexivity| |].
  - cbn [Z.to_int NilZero.string_of_int].
    destruct (pos_numeral p) as (c & rest & -> & Hc & _ & Hp).
    apply digit_cases in Hc. cbn [In] in Hc.
    unfold classify. cbn [plain_word]. rewrite Hp.
    repeat (destruct Hc as [<-|Hc]; [reflexivity|]). contradiction.
  - cbn [Z.to_int NilZero.string_of_int].
    destruct (pos_numeral p) as (c & rest & -> & Hc & Hd & Hp).
    unfold classify. cbn [plain_word]. rewrite Hp.
    unfold negative_number_tail. cbn [all_digits]. rewrite Hd.
    apply digit_cases in Hc. cbn [In] in Hc.
    repeat (destruct Hc as [<-|Hc]; [reflexivity|]). contradiction.
Qed.

Lemma py_int_str_int n : py_int (str_int n) = Some n.
Proof.
  assert (E : option_map Z.of_int (NilZero.int_of_string (str_int n)) = Some n).
  { unfold str_int. rewrite NilZero.isi.
    - cbn. now rewrite DecimalZ.of_to.
    - destruct n; cbn; try discriminate.
      intros H; injection H as H. now apply (Unsigned.to_uint_nonnil p).
    - destruct n; cbn; try discriminate.
      intros H; injection H as H. now apply (Unsigned.to_uint_nonnil p). }
  rewrite <- E. unfold py_int, str_int.
  destruct n as [|p|p]; [reflexivity| |reflexivity].
  cbn [Z.to_int NilZero.string_of_int].
  destruct (pos_numeral p) as (c & rest & -> & Hc & _).
  apply digit_cases in Hc. cbn [In] in Hc.
  repeat (destruct Hc as [<-|Hc]; [reflexivity|]). contradiction.
Qed.

(** ** The command line *)

Lemma parse_command_line port ssl :
  parse_args (command_line port ssl)
  = Some (ret {| args_port := port; args_ssl := ssl |}).
Proof.
  unfold parse_args, command_line.
  destruct ssl; cbn [classify_all]; rewrite classify_str_int;
    [change (classify "--ssl") with (Some TSsl)|];
    cbn [option_map consume]; rewrite py_int_str_int; reflexivity.
Qed.

(** ** Startup *)
Lemma startup_succeeds port use_ssl w :
  startup_ok port use_ssl w = true ->
  exists ip,
    env_lookup (boot_host w) (env_hostname (boot_host w)) = Some ip
    /\ create_test_server port use_ssl w =
       ((startup_trace port use_ssl (env_hostname (boot_host w)) ip, Ok tt) ;;
        accept_loop port use_ssl (arrivals w)).
Proof.
  unfold startup_ok. intros H.
  repeat (apply andb_prop in H; destruct H as [H ?]).
  destruct (env_lookup (boot_host w) (env_hostname (boot_host w))) as [ip|] eqn:El;
    [|discriminate].
  exists ip. split; [reflexivity|].
  unfold create_test_server. fold (accept_loop port use_ssl (arrivals w)).
  destruct (accept_loop port use_ssl (arrivals w)) as [tr r].
  unfold TCPServer, wrap_socket, gethostname, gethostbyname.
  assert (Hr : (port <? 0) || (65535 <? port) = false).
  { apply orb_false_intro; [apply Z.ltb_ge, Z.leb_le; assumption | apply Z.ltb_ge, Z.leb_le; assumption]. }
  rewrite Hr. destruct (os_bind w port); [discriminate|].
  destruct use_ssl.
  - cbn [negb orb] in *.
    destruct (fs w "cert.pem"); [discriminate|].
    destruct (fs w "key.pem"); [discriminate|].
    match goal with H : pair_valid w = true |- _ => rewrite H end.
    cbn. rewrite El. reflexivity.
  - cbn. rewrite El. reflexivity.
Qed.

(** ** The accept loop *)

Lemma calm_cons s input :
  calm (s :: input) = negb (is_interrupt s) && calm input.
Proof. reflexivity. Qed.

Lemma interrupt_ahead input : existsb is_interrupt input = negb (calm input).
Proof.
  induction input as [|s input IH]; [reflexivity|].
  rewrite calm_cons. cbn [existsb]. rewrite IH.
  now destruct (is_interrupt s), (calm input).
Qed.

Lemma calm_snoc pre s :
  calm pre = true -> is_interrupt s = false -> calm (pre ++ [s]) = true.
Proof.
  intros Hp Hs. unfold calm. rewrite forallb_app. fold (calm pre).
  rewrite Hp. cbn [forallb]. now rewrite Hs.
Qed.

Lemma calm_interrupted pre s post :
  is_interrupt s = true -> calm (pre ++ s :: post) = false.
Proof.
  intros Hs. unfold calm. rewrite forallb_app. cbn [forallb]. rewrite Hs.
  cbn [negb andb]. apply andb_false_r.
Qed.

Lemma steady_calm input : steady input = true -> calm input = true.
Proof.
  induction input as [|s input IH]; [reflexivity|].
  cbn [steady forallb]. intros H. apply andb_prop in H. destruct H as [Hs Hr].
  rewrite calm_cons, (IH Hr). destruct s as [|c|client point];
    try discriminate Hs. now rewrite Hs.
Qed.

Lemma steady_snoc pre c :
  steady pre = true -> is_interrupt (Conn c) = false ->
  steady (pre ++ [Conn c]) = true.
Proof.
  intros Hp Hc. unfold steady. rewrite forallb_app. fold (steady pre).
  rewrite Hp. cbn [forallb]. now rewrite Hc.
Qed.

Lemma served_app h pre rest :
  steady pre = true ->
  served h (pre ++ rest) = (served h pre ++ served h rest)%list.
Proof.
  induction pre as [|s pre IH]; [reflexivity|].
  cbn [steady forallb]. intros H. apply andb_prop in H. destruct H as [Hs Hr].
  destruct s as [|c|client point]; try discriminate Hs.
  cbn [app served]. now rewrite (IH Hr), app_assoc.
Qed.

Lemma trace_bind {A B} (m : M A) (k : A -> M B) :
  exists t, trace (bind m k) = (trace m ++ t)%list.
Proof.
  destruct m as [tr [a|e|]]; cbn [bind trace fst].
  - destruct (k a) as [tr' r]. now exists tr'.
  - exists []. now rewrite app_nil_r.
  - exists []. now rewrite app_nil_r.
Qed.

Section AcceptLoop.

(** The two variables that the handler class captures. *)
Variables (port : Z) (use_ssl : bool).

Local Abbreviation handler := (do_GET port use_ssl).

Lemma do_GET_outcome self now :
  outcome (handler self now) = Ok tt
  \/ outcome (handler self now) = Raise gaierror.
Proof.
  destruct self as [client []];
    cbv [do_GET send_response send_header end_headers wfile_write
         request_version client_address gethostname gethostbyname
         bind emit ret raise outcome];
    destruct (env_lookup now (env_hostname now)); auto.
Qed.

(** Only an interrupt leaves [_handle_request_noblock] as an exception. *)
Lemma request_returns c :
  is_interrupt (Conn c) = false ->
  outcome (handle_request_noblock handler c) = Ok tt.
Proof.
  unfold is_interrupt, handle_request_noblock, get_request,
    process_request, handle.
  destruct c as [client b now]; cbn [does peer host_now].
  destruct b; try reflexivity; try discriminate; intros _.
  - destruct (do_GET_outcome (versioned client) now) as [E|E];
      unfold versioned in E;
      destruct (handler _ now) as [tr r];
      cbn [outcome snd] in E; subst r; reflexivity.
  - destruct (do_GET_outcome (versionless client) now) as [E|E];
      unfold versionless in E;
      destruct (handler _ now) as [tr r];
      cbn [outcome snd] in E; subst r; reflexivity.
Qed.

Lemma serve_forever_step c rest :
  is_interrupt (Conn c) = false ->
  serve_forever handler (Conn c :: rest)
  = ((trace (handle_request_noblock handler c)
      ++ trace (serve_forever handler rest))%list,
     outcome (serve_forever handler rest)).
Proof.
  intros Hc. cbn [serve_forever].
  pose proof (request_returns c Hc) as Ho.
  destruct (handle_request_noblock handler c) as [tr r].
  cbn [outcome snd] in Ho. subst r.
  now destruct (serve_forever handler rest).
Qed.

(** Connections that end by themselves are handled one after the other,
    and the loop then goes on as if it had just started. *)
Lemma serve_forever_app pre rest :
  steady pre = true ->
  serve_forever handler (pre ++ rest)
  = ((served handler pre ++ trace (serve_forever handler rest))%list,
     outcome (serve_forever handler rest)).
Proof.
  induction pre as [|s pre IH]; intros H.
  - cbn. now destruct (serve_forever _ rest).
  - cbn [steady forallb] in H. apply andb_prop in H. destruct H as [Hs Hp].
    destruct s as [|c|client point]; try discriminate Hs.
    apply negb_true_iff in Hs.
    change ((Conn c :: pre) ++ rest)%list with (Conn c :: (pre ++ rest))%list.
    rewrite (serve_forever_step c _ Hs), (IH Hp).
    cbn [trace fst outcome snd served].
    now rewrite app_assoc.
Qed.

Lemma serve_forever_interrupted s post :
  is_interrupt s = true ->
  serve_forever handler (s :: post)
  = (served handler [s], Raise KeyboardInterrupt).
Proof.
  destruct s as [|[client b now]|client point];
    [reflexivity| |discriminate].
  unfold is_interrupt. cbn [does]. destruct b; try discriminate.
  reflexivity.
Qed.

(** Without an interrupt the loop never ends. *)
Lemma serve_forever_calm input :
  calm input = true ->
  serve_forever handler input = (served handler input, Blocked).
Proof.
  induction input as [|s input IH]; [reflexivity|].
  rewrite calm_cons. intros H. apply andb_prop in H. destruct H as [Hs Hr].
  apply negb_true_iff in Hs. destruct s as [|c|client point].
  - discriminate Hs.
  - rewrite (serve_forever_step c _ Hs), (IH Hr). reflexivity.
  - cbn [serve_forever served]. rewrite interrupt_ahead, Hr.
    destruct point; reflexivity.
Qed.

(** The first interrupt ends the loop, whatever follows it. *)
Lemma serve_forever_cut pre s post :
  calm pre = true -> is_interrupt s = true ->
  serve_forever handler (pre ++ s :: post)
  = (served handler (pre ++ [s]), Raise KeyboardInterrupt).
Proof.
  intros Hp Hs. induction pre as [|x pre IH].
  - apply serve_forever_interrupted, Hs.
  - rewrite calm_cons in Hp. apply andb_prop in Hp. destruct Hp as [Hx Hr].
    apply negb_true_iff in Hx. destruct x as [|c|client point].
    + discriminate Hx.
    + change ((Conn c :: pre) ++ s :: post)%list
        with (Conn c :: (pre ++ s :: post))%list.
      rewrite (serve_forever_step c _ Hx), (IH Hr). reflexivity.
    + cbn [app serve_forever served].
      rewrite !interrupt_ahead, !calm_interrupted by exact Hs.
      destruct point; reflexivity.
Qed.

(** A connection that gets through [accept()] is first of all accepted. *)
Lemma accepted_first c :
  gets_accepted (Conn c) = true ->
  exists tr,
    trace (handle_request_noblock handler c) = Accepted (peer c) :: tr.
Proof.
  destruct c as [client b now]. cbn [gets_accepted does peer].
  destruct b; try discriminate; intros _; try (eexists; reflexivity).
  - destruct (env_lookup now (env_hostname now)) as [ip|] eqn:El.
    + rewrite (get_request_ok _ _ _ _ _ _ El). eexists; reflexivity.
    + rewrite (get_request_lookup_fails _ _ _ _ _ El). eexists; reflexivity.
  - destruct (env_lookup now (env_hostname now)) as [ip|] eqn:El.
    + rewrite (versionless_request_ok _ _ _ _ _ _ El). eexists; reflexivity.
    + rewrite (versionless_request_lookup_fails _ _ _ _ _ El).
      eexists; reflexivity.
Qed.

Lemma next_is_accepted c next rest :
  is_interrupt (Conn c) = false ->
  gets_accepted (Conn next) = true ->
  In (Accepted (peer next))
     (trace (serve_forever handler (Conn c :: Conn next :: rest))).
Proof.
  intros Hc Hn. rewrite (serve_forever_step _ _ Hc). cbn [trace fst].
  apply in_or_app. right. cbn [serve_forever].
  destruct (trace_bind (handle_request_noblock handler next)
              (fun _ => serve_forever handler rest)) as (t & ->).
  destruct (accepted_first next Hn) as (tr & ->). now left.
Qed.

Lemma accept_loop_interrupted pre s post :
  calm pre = true -> is_interrupt s = true ->
  accept_loop port use_ssl (pre ++ s :: post)
  = ((served handler (pre ++ [s])
      ++ [Stdout shutdown_message; SockClosed])%list, Ok tt).
Proof.
  intros Hp Hs. unfold accept_loop.
  rewrite (serve_forever_cut _ _ _ Hp Hs).
  generalize (served handler (pre ++ [s])). intros tr.
  cbn [try_except print emit try_finally bind ret].
  now rewrite <- !app_assoc.
Qed.

Lemma accept_loop_calm input :
  calm input = true ->
  accept_loop port use_ssl input = (served handler input, Blocked).
Proof.
  intros Hc. unfold accept_loop. rewrite (serve_forever_calm _ Hc).
  reflexivity.
Qed.

Lemma accept_loop_app pre rest :
  steady pre = true ->
  accept_loop port use_ssl (pre ++ rest)
  = ((served handler pre ++ trace (accept_loop port use_ssl rest))%list,
     outcome (accept_loop port use_ssl rest)).
Proof.
  intros Hp. unfold accept_loop.
  rewrite (serve_forever_app _ _ Hp).
  destruct (serve_forever handler rest) as [tr [[]|e|]];
    cbn [trace fst outcome snd try_except try_finally bind emit ret raise].
  - now rewrite <- !app_assoc.
  - destruct e;
      cbn [print emit raise trace fst outcome snd try_finally bind ret];
      now rewrite <- ?app_assoc, ?app_nil_r.
  - reflexivity.
Qed.

End AcceptLoop.

Lemma main_of_parse argv port ssl :
  parse_args argv = Some (ret {| args_port := port; args_ssl := ssl |}) ->
  starts_server argv port ssl.
Proof.
  intros Hp w. unfold main. rewrite Hp.
  cbn [option_map args_port args_ssl]. f_equal.
  destruct (create_test_server port ssl w) as [tr r] eqn:E.
  unfold bind at 1. unfold ret. cbn [args_port args_ssl].
  unfold print, emit, bind at 1 2 3 4. rewrite E. destruct ssl; reflexivity.
Qed.

Lemma main_command_line port ssl :
  starts_server (command_line port ssl) port ssl.
Proof. apply main_of_parse, parse_command_line. Qed.

(** A run that gets through startup, for any input to the loop. *)
Lemma run_started port use_ssl w input :
  startup_ok port use_ssl w = true ->
  exists ip,
    env_lookup (boot_host w) (env_hostname (boot_host w)) = Some ip
    /\ run (command_line port use_ssl) (with_arrivals w input)
       = Some (python
           (((preamble port use_ssl
              ++ startup_trace port use_ssl (env_hostname (boot_host w)) ip)%list,
             Ok tt) ;;
            accept_loop port use_ssl input)).
Proof.
  intros H.
  destruct (startup_succeeds port use_ssl (with_arrivals w input) H)
    as (ip & Hip & E).
  exists ip. split; [exact Hip|].
  unfold run. rewrite main_command_line, E.
  cbn [option_map with_arrivals arrivals boot_host]. f_equal. f_equal.
  destruct (accept_loop port use_ssl input) as [tr r].
  cbn [bind]. now rewrite app_assoc.
Qed.

Lemma exit_status_of_outcome tr tr' (r : result unit) :
  snd (python (tr, r)) = snd (python (tr', r)).
Proof. destruct r as [[]|[]|]; reflexivity. Qed.

Lemma connection_error_calm c :
  connection_error c = true -> is_interrupt (Conn c) = false.
Proof.
  unfold connection_error, is_interrupt. destruct (does c); congruence.
Qed.

(* ================================================================== *)
(** ** GET requests (C1, C2, C10) *)




(** C2, as stated, does not hold: on a machine whose host name contains
    "HTTPS" the page served without TLS contains "HTTPS". *)
Lemma C2_https_in_host_name :
  ~ plain_page_without_https 8080 (get_from "203.0.113.9" https_named_host).
Proof.
  intros H.
  destruct (H (message 8080 "HTTPS-GW" "192.168.1.20" false "203.0.113.9"))
    as (_ & _ & Hn).
  - reflexivity.
  - rewrite https_in_plain_page in Hn. discriminate Hn.
Qed.

(** C2, amended: without TLS, a GET request handled while the host lookup
    succeeds gets a page that contains "HTTP" and the decimal port, and
    that does not contain "HTTPS" provided none of host name, local
    address and peer address contains it. *)
Theorem C2_plain_page port client path now ip :
  env_lookup now (env_hostname now) = Some ip ->
  contains "HTTPS" (env_hostname now) = false ->
  contains "HTTPS" ip = false ->
  contains "HTTPS" client = false ->
  let c := {| peer := client; does := Get path; host_now := now |} in
  body_of (trace (handle_request_noblock (do_GET port false) c))
    = Some (message port (env_hostname now) ip false client)
  /\ plain_page_without_https port c.
Proof.
  intros H Hh Hi Hc c.
  assert (E : body_of (trace (handle_request_noblock (do_GET port false) c))
              = Some (message port (env_hostname now) ip false client)).
  { unfold c. rewrite (get_request_ok _ _ _ _ _ _ H). reflexivity. }
  split; [exact E|].
  intros body Hb. rewrite E in Hb. injection Hb as <-.
  split; [apply (page_has_label port _ _ false)|].
  split; [apply page_has_port|].
  rewrite https_in_plain_page, Hh, Hi, Hc. reflexivity.
Qed.

Lemma C2_plain_page_witness :
  env_lookup lan_host (env_hostname lan_host) = Some "192.168.1.20"
  /\ contains "HTTPS" (env_hostname lan_host) = false
  /\ contains "HTTPS" "192.168.1.20" = false
  /\ contains "HTTPS" "203.0.113.9" = false
  /\ str_int 8080 = "8080"
  /\ plain_page_without_https 8080 (get_from "203.0.113.9" lan_host).
Proof.
  repeat (split; [reflexivity|]).
  apply (C2_plain_page 8080 "203.0.113.9" "/anything" lan_host
           "192.168.1.20"); reflexivity.
Defined.




(* ================================================================== *)
(** ** Startup failures (C3, C4, C5) *)

(** C3, as stated, does not hold: started with [--ssl] while [key.pem]
    is missing, on a free port, the script has bound the TCP socket and
    put it into the listening state (line 56) before the key is looked
    for (line 57). *)
Lemma C3_plain_socket_is_listening :
  ~ fails_without_plain_listener ["8443"; "--ssl"] no_key_world.
Proof.
  intros (tr & code & E & _ & _ & Hl).
  vm_compute in E. injection E as <- <-.
  specialize (Hl eq_refl). discriminate Hl.
Qed.

(** C3, amended: started with [--ssl] while [key.pem] is missing, the
    script never gets past startup: the process ends with exit status 1
    after a traceback, no connection is ever accepted and nothing is ever
    sent, whatever clients try.  When the bind itself succeeds the TCP
    socket is bound and listening, without TLS, at the moment the key
    fails to load; the exception is the missing-file error of
    [wrap_socket], and the script neither wraps nor closes the socket
    before the process ends. *)
Theorem C3_missing_key_is_fatal port w :
  fs w "key.pem" = Absent ->
  exists tr,
    run (command_line port true) w = Some (tr, Some 1)
    /\ existsb is_traceback tr = true
    /\ existsb is_accept tr = false
    /\ existsb is_wire tr = false
    /\ (0 <= port <= 65535 -> os_bind w port = None ->
        outcome (create_test_server port true w) = Raise FileNotFoundError
        /\ tr = (preamble port true
                 ++ [ SockBind bind_address port; SockListen;
                      StderrTraceback FileNotFoundError ])%list
        /\ existsb is_listen tr = true
        /\ existsb is_tls_wrap tr = false
        /\ existsb is_sock_closed tr = false).
Proof.
  intros Hk. unfold run. rewrite main_command_line.
  unfold create_test_server, TCPServer, wrap_socket. rewrite Hk.
  destruct ((port <? 0) || (65535 <? port)) eqn:Hr.
  - eexists. do 4 (split; [reflexivity|]).
    intros [Hlo Hhi] _. exfalso.
    apply orb_true_iff in Hr. destruct Hr as [Hr|Hr]; apply Z.ltb_lt in Hr; lia.
  - destruct (os_bind w port) as [e|].
    + eexists. do 4 (split; [reflexivity|]). intros _ H. discriminate H.
    + destruct (fs w "cert.pem"); eexists;
        do 4 (split; [reflexivity|]); intros _ _; repeat split; reflexivity.
Qed.

Lemma C3_missing_key_is_fatal_witness :
  fs no_key_world "key.pem" = Absent
  /\ exists tr,
       run ["8443"; "--ssl"] no_key_world = Some (tr, Some 1)
       /\ existsb is_traceback tr = true
       /\ existsb is_accept tr = false
       /\ existsb is_wire tr = false
       /\ (0 <= 8443 <= 65535 -> os_bind no_key_world 8443 = None ->
           outcome (create_test_server 8443 true no_key_world)
             = Raise FileNotFoundError
           /\ tr = (preamble 8443 true
                    ++ [ SockBind bind_address 8443; SockListen;
                         StderrTraceback FileNotFoundError ])%list
           /\ existsb is_listen tr = true
           /\ existsb is_tls_wrap tr = false
           /\ existsb is_sock_closed tr = false).
Proof.
  split; [reflexivity|].
  apply (C3_missing_key_is_fatal 8443 no_key_world). reflexivity.
Defined.

(** C4, as stated, does not hold: port 0 is outside 1-65535, yet the
    server starts, serves a client and ends with status 0 on Ctrl+C; port
    70000 ends the process, but not through the argument parser. *)
Lemma C4_out_of_range_not_rejected_by_parser :
  ~ rejected_by_parser ["0"] visited_world
  /\ ~ rejected_by_parser ["70000"] visited_world.
Proof.
  split; intros (tr & code & E & Hc & Hu & Hl);
    vm_compute in E; injection E as <- <-.
  - apply Hc. reflexivity.
  - discriminate Hu.
Qed.

(** C4, amended: an integer port outside 1-65535 whose decimal numeral
    [int] accepts (at most 4300 digits as the interpreter is configured
    by default) is accepted by the argument parser, which has no range
    check: the script goes on to [create_test_server].  Port 0 is bound
    like any other port and the server starts.  For a port below 0 or
    above 65535 the bind raises [OverflowError], which nothing catches:
    the process ends with a traceback, not a usage message, and exit
    status 1, and no server starts. *)
Theorem C4_port_outside_1_65535 port use_ssl w :
  port < 1 \/ 65535 < port ->
  within_int_limit port = true ->
  int_default (str_int port) = Some port
  /\ starts_server (command_line port use_ssl) port use_ssl
  /\ (port <> 0 ->
      exists tr,
        run (command_line port use_ssl) w = Some (tr, Some 1)
        /\ tr = (preamble port use_ssl
                 ++ [SockClosed; StderrTraceback OverflowError])%list
        /\ existsb is_usage tr = false
        /\ existsb is_listen tr = false
        /\ existsb is_accept tr = false)
  /\ (port = 0 ->
      startup_ok 0 use_ssl w = true ->
      forall input,
      exists ip,
        env_lookup (boot_host w) (env_hostname (boot_host w)) = Some ip
        /\ run (command_line 0 use_ssl) (with_arrivals w input)
           = Some (python
               (((preamble 0 use_ssl
                  ++ startup_trace 0 use_ssl (env_hostname (boot_host w)) ip)%list,
                 Ok tt) ;;
                accept_loop 0 use_ssl input))).
Proof.
  intros Hr Hd. split; [|split; [apply main_command_line|split]].
  - unfold int_default. unfold within_int_limit in Hd. rewrite Hd.
    apply py_int_str_int.
  - intros Hn. unfold run. rewrite main_command_line.
    assert (E : (port <? 0) || (65535 <? port) = true).
    { apply orb_true_iff. destruct Hr; [left|right]; apply Z.ltb_lt; lia. }
    unfold create_test_server, TCPServer. rewrite E.
    destruct use_ssl; eexists; repeat split; reflexivity.
  - intros _ Hs input. apply run_started, Hs.
Qed.

Lemma C4_port_outside_1_65535_witness :
  (70000 < 1 \/ 65535 < 70000)
  /\ within_int_limit 70000 = true
  /\ int_default (str_int 70000) = Some 70000
  /\ starts_server (command_line 70000 false) 70000 false.
Proof.
  split; [right; lia|]. split; [reflexivity|].
  destruct (C4_port_outside_1_65535 70000 false visited_world)
    as (Hi & Hs & _); [right; lia | reflexivity |].
  split; [exact Hi | exact Hs].
Defined.

(** C5: when the operating system refuses the bind (address in use,
    permission denied) the exception leaves [create_test_server] uncaught:
    the process prints a traceback and ends with exit status 1; no
    connection is accepted and nothing is sent, whatever clients try. *)
Theorem C5_bind_failure_is_fatal port use_ssl w e :
  0 <= port <= 65535 ->
  os_bind w port = Some e ->
  exists tr,
    run (command_line port use_ssl) w = Some (tr, Some 1)
    /\ tr = (preamble port use_ssl
             ++ [SockClosed; StderrTraceback (OSError e)])%list
    /\ existsb is_accept tr = false
    /\ existsb is_wire tr = false.
Proof.
  intros [Hlo Hhi] Hb. unfold run. rewrite main_command_line.
  assert (E : (port <? 0) || (65535 <? port) = false).
  { apply orb_false_intro; apply Z.ltb_ge; lia. }
  unfold create_test_server, TCPServer. rewrite E, Hb.
  destruct use_ssl; eexists; repeat split; reflexivity.
Qed.

Lemma C5_bind_failure_is_fatal_witness :
  0 <= 8080 <= 65535
  /\ os_bind busy_world 8080 = Some EADDRINUSE
  /\ exists tr,
       run ["8080"] busy_world = Some (tr, Some 1)
       /\ tr = (preamble 8080 false
                ++ [SockClosed; StderrTraceback (OSError EADDRINUSE)])%list
       /\ existsb is_accept tr = false
       /\ existsb is_wire tr = false.
Proof.
  split; [lia|]. split; [reflexivity|].
  apply (C5_bind_failure_is_fatal 8080 false busy_world EADDRINUSE);
    [lia | reflexivity].
Defined.

(* ================================================================== *)
(** ** The running server (C6, C7, C8) *)

(** C6: once the server runs, the first interrupt (while the loop waits or
    while a handler runs) ends the accept loop; the script prints the
    shutdown message, closes the listening socket and the process ends
    with exit status 0.  The run is the same whatever would have arrived
    after the interrupt: nothing later is accepted. *)
Theorem C6_interrupt_stops_server port use_ssl w pre s post :
  startup_ok port use_ssl w = true ->
  calm pre = true ->
  is_interrupt s = true ->
  exists ip,
    env_lookup (boot_host w) (env_hostname (boot_host w)) = Some ip
    /\ run (command_line port use_ssl) (with_arrivals w (pre ++ s :: post))
       = Some ((preamble port use_ssl
                ++ startup_trace port use_ssl (env_hostname (boot_host w)) ip
                ++ served (do_GET port use_ssl) (pre ++ [s])
                ++ [Stdout shutdown_message; SockClosed])%list,
               Some 0)
    /\ run (command_line port use_ssl) (with_arrivals w (pre ++ s :: post))
       = run (command_line port use_ssl) (with_arrivals w (pre ++ [s])).
Proof.
  intros Hw Hp Hs.
  destruct (run_started port use_ssl w (pre ++ s :: post) Hw) as (ip & Hip & E).
  destruct (run_started port use_ssl w (pre ++ [s]) Hw) as (ip' & Hip' & E').
  rewrite Hip in Hip'. injection Hip' as <-.
  exists ip. split; [exact Hip|].
  rewrite E, E', !accept_loop_interrupted by assumption.
  split; [|reflexivity].
  cbn [bind python]. now rewrite <- !app_assoc.
Qed.

Lemma C6_interrupt_stops_server_witness :
  startup_ok 8080 false quiet_world = true
  /\ calm [Conn (get_from "203.0.113.9" lan_host)] = true
  /\ is_interrupt Interrupt = true
  /\ exists ip,
       env_lookup lan_host (env_hostname lan_host) = Some ip
       /\ run ["8080"]
            (with_arrivals quiet_world
               ([Conn (get_from "203.0.113.9" lan_host)]
                ++ Interrupt :: [Conn (get_from "198.51.100.4" lan_host)]))
          = Some ((preamble 8080 false
                   ++ startup_trace 8080 false "WIN-SRV01" ip
                   ++ served (do_GET 8080 false)
                        ([Conn (get_from "203.0.113.9" lan_host)]
                         ++ [Interrupt])
                   ++ [Stdout shutdown_message; SockClosed])%list,
                  Some 0)
       /\ run ["8080"]
            (with_arrivals quiet_world
               ([Conn (get_from "203.0.113.9" lan_host)]
                ++ Interrupt :: [Conn (get_from "198.51.100.4" lan_host)]))
          = run ["8080"]
              (with_arrivals quiet_world
                 ([Conn (get_from "203.0.113.9" lan_host)] ++ [Interrupt])).
Proof.
  repeat (split; [reflexivity|]).
  apply (C6_interrupt_stops_server 8080 false quiet_world
           [Conn (get_from "203.0.113.9" lan_host)] Interrupt
           [Conn (get_from "198.51.100.4" lan_host)]);
    reflexivity.
Defined.

(** C7, as stated, does not hold: a peer whose TLS handshake never
    completes keeps the server waiting inside [accept()]; the next
    connection to arrive is not accepted. *)
Lemma C7_silent_peer_blocks_server :
  ~ keeps_accepting 8443 true (Stall "198.51.100.4" InHandshake).
Proof.
  intros H.
  specialize (H (get_from "203.0.113.9" lan_host) [] eq_refl).
  exact H.
Qed.

(** C7, amended: a connection error that reaches the server as an
    exception or as an end of input (handshake refused inside accept,
    hang-up, reset, a failed host lookup during its GET) is not fatal:
    that connection is closed and no exception leaves the request; the
    next connection to arrive is accepted; and the run of the script is
    the startup, what was done for the connections before, what was done
    for this one, and then the accept loop on what arrives next, exactly
    as if it had just been entered.  A peer that connects and stays
    silent is not such an error: no timeout is set, so the server waits
    for it and, as long as no interrupt comes, accepts nobody else; the
    process does not end. *)
Theorem C7_connection_errors_are_local port use_ssl w pre c post :
  startup_ok port use_ssl w = true ->
  steady pre = true ->
  connection_error c = true ->
  let handler := do_GET port use_ssl in
  (exists tr,
     handle_request_noblock handler c
     = ((tr ++ [ConnClosed (peer c)])%list, Ok tt))
  /\ keeps_accepting port use_ssl (Conn c)
  /\ exists ip,
       env_lookup (boot_host w) (env_hostname (boot_host w)) = Some ip
       /\ run (command_line port use_ssl)
             (with_arrivals w (pre ++ Conn c :: post))
          = Some (python
              (((preamble port use_ssl
                 ++ startup_trace port use_ssl (env_hostname (boot_host w)) ip
                 ++ served handler pre
                 ++ trace (handle_request_noblock handler c))%list,
                Ok tt) ;;
               accept_loop port use_ssl post))
       /\ (forall client point rest,
             calm rest = true ->
             run (command_line port use_ssl)
                 (with_arrivals w (pre ++ Stall client point :: rest))
             = Some ((preamble port use_ssl
                      ++ startup_trace port use_ssl
                           (env_hostname (boot_host w)) ip
                      ++ served handler pre
                      ++ match point with
                         | InHandshake => []
                         | BeforeRequest => [Accepted client]
                         end)%list,
                     None)).
Proof.
  intros Hw Hp Hc handler.
  pose proof (connection_error_calm c Hc) as Hq.
  split; [|split].
  - unfold connection_error in Hc. unfold handler.
    destruct c as [client b now]. cbn [does host_now peer] in *.
    destruct b; try discriminate Hc.
    + exists []. reflexivity.
    + exists [Accepted client]. reflexivity.
    + exists [Accepted client; StderrTraceback ConnectionResetError].
      reflexivity.
    + destruct (env_lookup now (env_hostname now)) eqn:El; [discriminate|].
      rewrite (get_request_lookup_fails _ _ _ _ _ El).
      eexists [_; _; _; _; _]. reflexivity.
    + destruct (env_lookup now (env_hostname now)) eqn:El; [discriminate|].
      rewrite (versionless_request_lookup_fails _ _ _ _ _ El).
      eexists [_; _]. reflexivity.
  - intros next rest Hn. now apply next_is_accepted.
  - destruct (run_started port use_ssl w (pre ++ Conn c :: post) Hw)
      as (ip & Hip & E).
    exists ip. split; [exact Hip|]. split.
    + rewrite E. f_equal. f_equal.
      pose proof (steady_snoc pre c Hp Hq) as Hpc.
      change (pre ++ Conn c :: post)%list with (pre ++ [Conn c] ++ post)%list.
      rewrite app_assoc, (accept_loop_app _ _ _ _ Hpc).
      rewrite (served_app _ _ _ Hp). cbn [served]. rewrite app_nil_r.
      unfold handler.
      destruct (accept_loop port use_ssl post) as [tr r].
      cbn [bind trace fst outcome snd]. now rewrite <- !app_assoc.
    + intros client point rest Hr.
      destruct (run_started port use_ssl w (pre ++ Stall client point :: rest) Hw)
        as (ip' & Hip' & E').
      rewrite Hip in Hip'. injection Hip' as <-. rewrite E'.
      assert (Hcalm : calm (pre ++ Stall client point :: rest) = true).
      { unfold calm. rewrite forallb_app. fold (calm pre).
        rewrite (steady_calm _ Hp). exact Hr. }
      rewrite (accept_loop_calm _ _ _ Hcalm), (served_app _ _ _ Hp).
      cbn [served]. rewrite interrupt_ahead, Hr.
      unfold handler. cbn [negb bind python].
      destruct point; cbn [wait_for_peer trace fst bind emit blocked app];
        now rewrite <- !app_assoc.
Qed.

Lemma C7_connection_errors_are_local_witness :
  startup_ok 8443 true quiet_world = true
  /\ steady [Conn (get_from "203.0.113.9" lan_host)] = true
  /\ connection_error (behaving "198.51.100.4" HandshakeFails) = true
  /\ keeps_accepting 8443 true (Conn (behaving "198.51.100.4" HandshakeFails)).
Proof.
  repeat (split; [reflexivity|]).
  apply (C7_connection_errors_are_local 8443 true quiet_world
           [Conn (get_from "203.0.113.9" lan_host)]
           (behaving "198.51.100.4" HandshakeFails)
           [Conn (get_from "192.0.2.33" lan_host); Interrupt]);
    reflexivity.
Defined.




(* ================================================================== *)
(** ** The TLS flag (C9) *)

(** C9, as stated, does not hold: [-ssl] does not start the server with
    TLS. *)
Lemma C9_single_dash_not_accepted :
  ~ starts_server ["8080"; "-ssl"] 8080 true.
Proof.
  intros H. specialize (H quiet_world).
  destruct (create_test_server 8080 true quiet_world) as [tr r].
  vm_compute in H. discriminate H.
Qed.

(** C9, amended: [--ssl], before or after the port, starts the server
    with TLS; without the flag the server is started without TLS; [-ssl]
    is not a form of the flag: the parser reports it as an unrecognized
    argument with its usage text and the process ends with exit status 2
    before anything is bound. *)
Theorem C9_ssl_flag port :
  starts_server [str_int port; "--ssl"] port true
  /\ starts_server ["--ssl"; str_int port] port true
  /\ starts_server [str_int port] port false
  /\ (forall w,
        run [str_int port; "-ssl"] w
        = Some ([StderrUsage "unrecognized arguments: -ssl"], Some 2)).
Proof.
  split; [exact (main_command_line port true)|].
  split; [|split; [exact (main_command_line port false)|]].
  - apply main_of_parse. unfold parse_args. cbn [classify_all].
    rewrite classify_str_int. change (classify "--ssl") with (Some TSsl).
    cbn [option_map consume]. now rewrite py_int_str_int.
  - intros w. unfold run, main, parse_args. cbn [classify_all].
    rewrite classify_str_int.
    change (classify "-ssl") with (Some (TUnknown "-ssl")).
    cbn [option_map consume]. rewrite py_int_str_int. reflexivity.
Qed.

(* ================================================================== *)
(** * Further properties of the script *)

(** ** Every startup failure *)

Lemma range_test port :
  (port <? 0) || (65535 <? port) = negb ((0 <=? port) && (port <=? 65535)).
Proof. now rewrite negb_andb, !Z.ltb_antisym. Qed.

Lemma startup_fails port use_ssl w :
  startup_ok port use_ssl w = false ->
  exists tr e,
    create_test_server port use_ssl w = (tr, Raise e)
    /\ is_Exception e = true
    /\ existsb is_accept tr = false
    /\ existsb is_wire tr = false.
Proof.
  unfold startup_ok, create_test_server, TCPServer, wrap_socket,
    gethostname, gethostbyname.
  rewrite range_test.
  destruct ((0 <=? port) && (port <=? 65535)); cbn [negb andb].
  2:{ intros _. destruct use_ssl; eexists; eexists; repeat split; reflexivity. }
  destruct (os_bind w port) as [e|]; cbn [andb].
  { intros _. destruct use_ssl; eexists; eexists; repeat split; reflexivity. }
  destruct use_ssl; cbn [negb orb andb].
  - destruct (fs w "cert.pem"), (fs w "key.pem"); cbn [andb];
      try (intros _; eexists; eexists; repeat split; reflexivity).
    destruct (pair_valid w); cbn [andb];
      [|intros _; eexists; eexists; repeat split; reflexivity].
    destruct (env_lookup (boot_host w) (env_hostname (boot_host w))) eqn:El;
      [discriminate|].
    intros _. cbv [bind emit ret raise try_except]. rewrite El.
    eexists; eexists; repeat split; reflexivity.
  - destruct (env_lookup (boot_host w) (env_hostname (boot_host w))) eqn:El;
      [discriminate|].
    intros _. cbv [bind emit ret raise try_except]. rewrite El.
    eexists; eexists; repeat split; reflexivity.
Qed.

Lemma split_at_interrupt input :
  calm input = true
  \/ exists pre s post,
       input = (pre ++ s :: post)%list
       /\ calm pre = true /\ is_interrupt s = true.
Proof.
  induction input as [|s rest IH]; [now left|].
  destruct (is_interrupt s) eqn:Hs.
  - right. exists [], s, rest. auto.
  - destruct IH as [Hc|(pre & s' & post & -> & Hp & Hs')].
    + left. cbn [calm forallb]. rewrite Hs. exact Hc.
    + right. exists (s :: pre), s', post. repeat split; auto.
      cbn [calm forallb]. rewrite Hs. exact Hp.
Qed.

Lemma python_uncaught tr e :
  is_Exception e = true ->
  python (tr, Raise e) = ((tr ++ [StderrTraceback e])%list, Some 1).
Proof. destruct e; try discriminate; reflexivity. Qed.


(** X1: whatever makes startup fail (a port outside 0..65535, a bind the
    operating system refuses, a missing or unusable key or certificate in
    TLS mode, a host name that does not resolve), the exception leaves
    [create_test_server] uncaught: after the lines printed by the script
    body comes a traceback, the exit status is 1, and nothing was accepted
    or sent. *)
Theorem X1_startup_failure_is_fatal port use_ssl w :
  startup_ok port use_ssl w = false ->
  exists tr e,
    run (command_line port use_ssl) w
    = Some ((preamble port use_ssl ++ tr ++ [StderrTraceback e])%list, Some 1)
    /\ existsb is_accept tr = false
    /\ existsb is_wire tr = false.
Proof.
  intros H. destruct (startup_fails port use_ssl w H) as (tr & e & E & He & Ha & Hw).
  exists tr, e. split; [|split; assumption].
  unfold run. rewrite main_command_line, E. cbn [option_map bind].
  rewrite (python_uncaught _ _ He). now rewrite <- app_assoc.
Qed.

Lemma X1_startup_failure_is_fatal_witness :
  startup_ok 8080 false unresolved_world = false
  /\ exists tr e,
       run (command_line 8080 false) unresolved_world
       = Some ((preamble 8080 false ++ tr ++ [StderrTraceback e])%list, Some 1)
       /\ existsb is_accept tr = false
       /\ existsb is_wire tr = false.
Proof.
  split; [reflexivity|].
  apply (X1_startup_failure_is_fatal 8080 false unresolved_world).
  reflexivity.
Defined.

(** X2: once startup has succeeded, nothing that arrives can end the
    process with an error: with no interrupt in the input the process is
    still running, and with one it has ended with exit status 0. *)
Theorem X2_started_server_ends_only_by_interrupt port use_ssl w input :
  startup_ok port use_ssl w = true ->
  option_map snd (run (command_line port use_ssl) (with_arrivals w input))
  = Some (if calm input then None else Some 0).
Proof.
  intros Hw. destruct (run_started port use_ssl w input Hw) as (ip & _ & E).
  rewrite E. cbn [option_map]. f_equal.
  destruct (split_at_interrupt input) as [Hc|(pre & s & post & -> & Hp & Hs)].
  - rewrite Hc, (accept_loop_calm _ _ _ Hc). reflexivity.
  - rewrite (calm_interrupted _ _ _ Hs), (accept_loop_interrupted _ _ _ _ _ Hp Hs).
    reflexivity.
Qed.

Lemma X2_started_server_ends_only_by_interrupt_witness :
  startup_ok 8080 false quiet_world = true
  /\ option_map snd
       (run (command_line 8080 false)
          (with_arrivals quiet_world
             [Conn (behaving "198.51.100.4" PeerReset);
              Conn (get_from "203.0.113.9" unresolved_host)]))
     = Some None.
Proof.
  split; [reflexivity|].
  apply (X2_started_server_ends_only_by_interrupt 8080 false quiet_world
           [Conn (behaving "198.51.100.4" PeerReset);
            Conn (get_from "203.0.113.9" unresolved_host)]).
  reflexivity.
Defined.





(** ** Connections *)

Lemma count_app test a b :
  count test (a ++ b) = (count test a + count test b)%nat.
Proof. unfold count. now rewrite filter_app, length_app. Qed.

Lemma request_shape port use_ssl c :
  exists tr,
    trace (handle_request_noblock (do_GET port use_ssl) c)
    = ((if gets_accepted (Conn c) then [Accepted (peer c)] else [])
       ++ tr ++ [ConnClosed (peer c)])%list
    /\ existsb is_accept tr = false
    /\ existsb is_conn_closed tr = false
    /\ only_writes_to (peer c) tr.
Proof.
  destruct c as [client b now]. cbn [peer gets_accepted does].
  assert (W0 : only_writes_to client []) by (intros p what []).
  assert (W1 : forall x, only_writes_to client [Wire client x]).
  { intros x p what [H|[]]. now injection H. }
  assert (W2 : forall e, only_writes_to client [StderrTraceback e]).
  { intros e p what [H|[]]. discriminate H. }
  destruct b as [| | | |path|path|code|request].
  - exists []. repeat split; try reflexivity; exact W0.
  - exists []. repeat split; try reflexivity; exact W0.
  - exists [StderrTraceback ConnectionResetError].
    repeat split; try reflexivity. apply W2.
  - exists []. repeat split; try reflexivity; exact W0.
  - destruct (env_lookup now (env_hostname now)) as [ip|] eqn:El.
    + rewrite (get_request_ok _ _ _ _ _ _ El).
      eexists [_; _; _; _]. repeat split; try reflexivity.
      intros p what H. cbn [In] in H.
      repeat (destruct H as [H|H]; [now injection H|]). destruct H.
    + rewrite (get_request_lookup_fails _ _ _ _ _ El).
      eexists [_; _; _; _]. repeat split; try reflexivity.
      intros p what H. cbn [In] in H.
      repeat (destruct H as [H|H]; [try discriminate H; now injection H|]).
      destruct H.
  - destruct (env_lookup now (env_hostname now)) as [ip|] eqn:El.
    + rewrite (versionless_request_ok _ _ _ _ _ _ El).
      eexists [_]. repeat split; try reflexivity. apply W1.
    + rewrite (versionless_request_lookup_fails _ _ _ _ _ El).
      eexists [_]. repeat split; try reflexivity. apply W2.
  - exists [Wire client (ErrorReply code)].
    repeat split; try reflexivity. apply W1.
  - exists [Wire client (FrameworkReply request)].
    repeat split; try reflexivity. apply W1.
Qed.

Lemma count_none test tr : existsb test tr = false -> count test tr = 0%nat.
Proof.
  unfold count. induction tr as [|e tr IH]; [reflexivity|].
  cbn [existsb filter]. intros H. apply orb_false_elim in H.
  destruct H as [-> H]. now apply IH.
Qed.

Lemma request_counts port use_ssl c :
  count is_conn_closed (trace (handle_request_noblock (do_GET port use_ssl) c))
  = 1%nat
  /\ count is_accept (trace (handle_request_noblock (do_GET port use_ssl) c))
     = (if gets_accepted (Conn c) then 1 else 0)%nat.
Proof.
  destruct (request_shape port use_ssl c) as (t & -> & Ha & Hc & _).
  rewrite !count_app, (count_none _ _ Hc), (count_none _ _ Ha).
  destruct (gets_accepted (Conn c)); split; reflexivity.
Qed.

(** X5: whatever a connection does (failed handshake, hang-up, reset,
    interrupt during its handler, GET with or without a version and with
    or without a working host lookup, a request the framework refuses,
    any other request), the last thing done for it is closing it,
    it is closed exactly once, and nothing is written to any peer but its
    own. *)
Theorem X5_connection_closed_once_and_private port use_ssl c :
  let tr := trace (handle_request_noblock (do_GET port use_ssl) c) in
  (exists tr', tr = (tr' ++ [ConnClosed (peer c)])%list)
  /\ count is_conn_closed tr = 1%nat
  /\ only_writes_to (peer c) tr.
Proof.
  intros tr. unfold tr.
  split; [|split; [apply request_counts|]];
    destruct (request_shape port use_ssl c) as (t & -> & _ & _ & Hw).
  - eexists. rewrite app_assoc. reflexivity.
  - intros p what H. apply in_app_or in H. destruct H as [H|H].
    + destruct (gets_accepted (Conn c));
        [destruct H as [H|[]]; discriminate H|destruct H].
    + apply in_app_or in H.
      destruct H as [H|[H|[]]]; [eapply Hw; exact H|discriminate H].
Qed.

(** X4: as long as every connection that arrives ends by itself (no
    interrupt, no peer that stays silent), the loop closes as many
    connections as arrived and accepts exactly those whose [accept()]
    succeeds: none is skipped, left open or handled twice. *)
Theorem X4_every_connection_closed_once port use_ssl input :
  steady input = true ->
  let tr := trace (serve_forever (do_GET port use_ssl) input) in
  count is_conn_closed tr = length input
  /\ count is_accept tr = length (filter gets_accepted input).
Proof.
  intros Hc tr. unfold tr. clear tr.
  induction input as [|s rest IH]; [split; reflexivity|].
  cbn [steady forallb] in Hc. apply andb_prop in Hc. destruct Hc as [Hs Hr].
  destruct s as [|c|client point]; try discriminate Hs.
  apply negb_true_iff in Hs.
  rewrite (serve_forever_step _ _ _ _ Hs). cbn [trace fst].
  destruct (IH Hr) as [IHc IHa].
  destruct (request_counts port use_ssl c) as (Hcl & Hac).
  rewrite !count_app, IHc, IHa, Hcl, Hac. cbn [filter length].
  destruct (gets_accepted (Conn c)); split; reflexivity.
Qed.

Lemma X4_every_connection_closed_once_witness :
  steady [Conn (behaving "198.51.100.4" HandshakeFails);
          Conn (get_from "203.0.113.9" lan_host);
          Conn (behaving "192.0.2.33" Hangup)] = true
  /\ count is_conn_closed
       (trace (serve_forever (do_GET 8443 true)
                 [Conn (behaving "198.51.100.4" HandshakeFails);
                  Conn (get_from "203.0.113.9" lan_host);
                  Conn (behaving "192.0.2.33" Hangup)]))
     = 3%nat.
Proof.
  split; [reflexivity|].
  apply (X4_every_connection_closed_once 8443 true
           [Conn (behaving "198.51.100.4" HandshakeFails);
            Conn (get_from "203.0.113.9" lan_host);
            Conn (behaving "192.0.2.33" Hangup)]).
  reflexivity.
Defined.

(** ** TLS *)

(** X6: in TLS mode a connection is accepted only after the listening
    socket has been wrapped: a run of [create_test_server] with
    [use_ssl] that accepts anything went through the whole startup, and
    its trace begins with bind, listen and the TLS wrap. *)
Theorem X6_tls_wrap_precedes_accept port w :
  existsb is_accept (trace (create_test_server port true w)) = true ->
  startup_ok port true w = true
  /\ exists post,
       trace (create_test_server port true w)
       = ([SockBind bind_address port; SockListen]
          ++ SockTlsWrap "key.pem" "cert.pem" :: post)%list.
Proof.
  intros H. destruct (startup_ok port true w) eqn:Hs.
  - split; [reflexivity|].
    destruct (startup_succeeds port true w Hs) as (ip & _ & ->).
    destruct (accept_loop port true (arrivals w)) as [tr r].
    eexists. reflexivity.
  - destruct (startup_fails port true w Hs) as (t & e & E & _ & Ha & _).
    rewrite E in H. cbn [trace fst] in H. congruence.
Qed.

Lemma X6_tls_wrap_precedes_accept_witness :
  existsb is_accept (trace (create_test_server 8443 true visited_world)) = true
  /\ startup_ok 8443 true visited_world = true
  /\ exists post,
       trace (create_test_server 8443 true visited_world)
       = ([SockBind bind_address 8443; SockListen]
          ++ SockTlsWrap "key.pem" "cert.pem" :: post)%list.
Proof.
  split; [reflexivity|].
  apply (X6_tls_wrap_precedes_accept 8443 visited_world). reflexivity.
Defined.

(** X7: when startup fails after the bind has succeeded (TLS material or
    host lookup), [create_test_server] is left with the socket bound and
    listening and never calls [server_close]: the [finally] clause only
    guards the accept loop. *)
Theorem X7_late_startup_failure_leaves_socket_open port use_ssl w :
  0 <= port <= 65535 ->
  os_bind w port = None ->
  startup_ok port use_ssl w = false ->
  exists tr e,
    create_test_server port use_ssl w = (tr, Raise e)
    /\ existsb is_listen tr = true
    /\ existsb is_sock_closed tr = false.
Proof.
  intros [Hlo Hhi] Hb.
  unfold startup_ok, create_test_server, TCPServer, wrap_socket,
    gethostname, gethostbyname.
  rewrite range_test.
  apply Z.leb_le in Hlo, Hhi. rewrite Hlo, Hhi, Hb. cbn [negb andb].
  destruct use_ssl; cbn [negb orb andb].
  - destruct (fs w "cert.pem"), (fs w "key.pem"); cbn [andb];
      try (intros _; eexists; eexists; repeat split; reflexivity).
    destruct (pair_valid w); cbn [andb];
      [|intros _; eexists; eexists; repeat split; reflexivity].
    destruct (env_lookup (boot_host w) (env_hostname (boot_host w))) eqn:El;
      [discriminate|].
    intros _. cbv [bind emit ret raise try_except]. rewrite El.
    eexists; eexists; repeat split; reflexivity.
  - destruct (env_lookup (boot_host w) (env_hostname (boot_host w))) eqn:El;
      [discriminate|].
    intros _. cbv [bind emit ret raise try_except]. rewrite El.
    eexists; eexists; repeat split; reflexivity.
Qed.

Lemma X7_late_startup_failure_leaves_socket_open_witness :
  0 <= 8080 <= 65535
  /\ os_bind unresolved_world 8080 = None
  /\ startup_ok 8080 false unresolved_world = false
  /\ exists tr e,
       create_test_server 8080 false unresolved_world = (tr, Raise e)
       /\ existsb is_listen tr = true
       /\ existsb is_sock_closed tr = false.
Proof.
  split; [lia|]. split; [reflexivity|]. split; [reflexivity|].
  apply (X7_late_startup_failure_leaves_socket_open 8080 false unresolved_world);
    [lia | reflexivity | reflexivity].
Defined.

(** ** The page in both modes *)

Lemma startswith_app_l p q s :
  startswith (p ++ q) s = true -> startswith p s = true.
Proof.
  revert s. induction p as [|a p IH]; intros s H; [reflexivity|].
  destruct s as [|b s]; [discriminate H|].
  cbn [append startswith] in *. apply andb_prop in H. destruct H as [-> H].
  now apply IH.
Qed.

Lemma contains_prefix_of p q s :
  contains (p ++ q) s = true -> contains p s = true.
Proof.
  induction s as [|c s IH]; cbn [contains]; intros H.
  - apply orb_prop in H. destruct H as [H|H]; [|discriminate H].
    now rewrite (startswith_app_l _ _ _ H).
  - apply orb_prop in H. destruct H as [H|H].
    + now rewrite (startswith_app_l _ _ _ H).
    + rewrite (IH H). apply orb_true_r.
Qed.

(** X8: in either mode the page contains "HTTP"; it contains "HTTPS"
    exactly when the server runs with TLS or one of host name, local
    address and peer address contains it. *)
Theorem X8_https_label_marks_tls port hn ip use_ssl client :
  contains "HTTPS" (message port hn ip use_ssl client)
  = use_ssl || contains "HTTPS" hn || contains "HTTPS" ip
    || contains "HTTPS" client
  /\ contains "HTTP" (message port hn ip use_ssl client) = true.
Proof.
  destruct use_ssl.
  - pose proof (page_has_label port hn ip true client) as H.
    split; [exact H|]. apply (contains_prefix_of "HTTP" "S"). exact H.
  - split; [apply https_in_plain_page|].
    apply (page_has_label port hn ip false client).
Qed.

(** ** Command lines *)

Lemma classify_all_app xs ys :
  classify_all (xs ++ ys)
  = match classify_all xs, classify_all ys with
    | Some a, Some b => Some (a ++ b)%list
    | _, _ => None
    end.
Proof.
  induction xs as [|x xs IH]; cbn [app classify_all].
  - now destruct (classify_all ys).
  - rewrite IH. destruct (classify x); [|reflexivity].
    destruct (classify_all xs); [|reflexivity].
    now destruct (classify_all ys).
Qed.

Lemma classify_all_flags n :
  classify_all (repeat "--ssl" n) = Some (repeat TSsl n).
Proof.
  induction n as [|n IH]; [reflexivity|].
  cbn [repeat classify_all]. rewrite IH. reflexivity.
Qed.

Lemma consume_flags n ts port ssl extras :
  consume (repeat TSsl n ++ ts) port ssl extras
  = consume ts port (ssl || negb (Nat.eqb n 0)) extras.
Proof.
  revert ssl. induction n as [|n IH]; intros ssl.
  - cbn. now rewrite orb_false_r.
  - cbn [repeat app consume]. rewrite IH. cbn. now rewrite orb_true_r.
Qed.

(** X9: the decimal numeral of an integer, negative ones included, that
    [int] accepts (at most 4300 digits as the interpreter is configured
    by default) is read back as that integer by the parser, with any
    number of [--ssl] flags before and after it; TLS is on exactly when
    there is at least one flag. *)
Theorem X9_ssl_flag_anywhere port a b :
  within_int_limit port = true ->
  int_default (str_int port) = Some port
  /\ starts_server (repeat "--ssl" a ++ str_int port :: repeat "--ssl" b)
       port (negb (Nat.eqb (a + b) 0)).
Proof.
  intros Hd. split.
  { unfold int_default. unfold within_int_limit in Hd. rewrite Hd.
    apply py_int_str_int. }
  apply main_of_parse. unfold parse_args.
  rewrite classify_all_app, classify_all_flags. cbn [classify_all].
  rewrite classify_str_int, classify_all_flags. cbn [option_map].
  rewrite consume_flags. cbn [consume]. rewrite py_int_str_int.
  rewrite <- (app_nil_r (repeat TSsl b)), consume_flags. cbn [consume orb].
  replace (negb (Nat.eqb (a + b) 0))
    with (negb (Nat.eqb a 0) || negb (Nat.eqb b 0));
    [reflexivity|destruct a, b; reflexivity].
Qed.

Lemma X9_ssl_flag_anywhere_witness :
  within_int_limit (-5) = true
  /\ int_default (str_int (-5)) = Some (-5)
  /\ starts_server ["--ssl"; "--ssl"; "-5"; "--ssl"] (-5) true.
Proof.
  split; [reflexivity|].
  apply (X9_ssl_flag_anywhere (-5) 2 1). reflexivity.
Defined.

(** X10: a command line without a port (empty, or only [--ssl] flags)
    ends in the usage message for the missing argument with exit status
    2; nothing is printed by the script and nothing is bound. *)
Theorem X10_missing_port_is_usage_error n w :
  run (repeat "--ssl" n) w
  = Some ([StderrUsage "the following arguments are required: port"], Some 2).
Proof.
  unfold run, main, parse_args. rewrite classify_all_flags. cbn [option_map].
  rewrite <- (app_nil_r (repeat TSsl n)), consume_flags. reflexivity.
Qed.

(** X11: a second number on the command line is not taken as anything:
    the parser reports it as unrecognized with its usage message and the
    process ends with exit status 2 before anything is bound. *)
Theorem X11_second_number_is_unrecognized port other use_ssl w :
  run (command_line port use_ssl ++ [str_int other]) w
  = Some ([StderrUsage ("unrecognized arguments: " ++ str_int other)], Some 2).
Proof.
  unfold run, main, parse_args, command_line.
  destruct use_ssl; cbn [app classify_all]; rewrite !classify_str_int;
    [change (classify "--ssl") with (Some TSsl)|];
    cbn [option_map consume]; rewrite py_int_str_int; reflexivity.
Qed.

(** ** The banner *)

(** X12: after a successful startup the two access addresses printed in
    the banner use the [http] scheme, with the port and the address found
    at startup, in TLS mode as well as in plain mode. *)
Theorem X12_banner_urls_ignore_tls port use_ssl w :
  startup_ok port use_ssl w = true ->
  exists ip,
    env_lookup (boot_host w) (env_hostname (boot_host w)) = Some ip
    /\ In (Stdout ("   本机访问: http://localhost:" ++ str_int port))
          (trace (create_test_server port use_ssl w))
    /\ In (Stdout ("   局域网访问: http://" ++ ip ++ ":" ++ str_int port))
          (trace (create_test_server port use_ssl w)).
Proof.
  intros Hs. destruct (startup_succeeds port use_ssl w Hs) as (ip & Hip & ->).
  exists ip. split; [exact Hip|].
  destruct (accept_loop port use_ssl (arrivals w)) as [tr r].
  cbn [bind trace fst]. unfold startup_trace.
  split; apply in_or_app; left; apply in_or_app; right;
    apply in_or_app; right; cbn [In]; auto 20.
Qed.

Lemma X12_banner_urls_ignore_tls_witness :
  startup_ok 8443 true quiet_world = true
  /\ exists ip,
       env_lookup lan_host (env_hostname lan_host) = Some ip
       /\ In (Stdout ("   本机访问: http://localhost:" ++ str_int 8443))
             (trace (create_test_server 8443 true quiet_world))
       /\ In (Stdout ("   局域网访问: http://" ++ ip ++ ":" ++ str_int 8443))
             (trace (create_test_server 8443 true quiet_world)).
Proof.
  split; [reflexivity|].
  apply (X12_banner_urls_ignore_tls 8443 true quiet_world). reflexivity.
Defined.
